(** * Verification of scripts/extract_bible_data.py

    The script has two transformations:
    - [extract_books]: scans the lines of the MyBible module format text
      for six-line book blocks and collects them into a dict keyed by
      book number, later written to books.json;
    - [extract_plan]: groups the rows of the [reading_plan] table (read
      with ORDER BY day, item) into one record per day.

    Python strings are modelled as lists of Unicode code points ([list Z]).
    The Unicode character database used by [str.isdigit] and [int()] is a
    pair of section variables, so the results below hold for any table;
    [latin1_isdigit] / [latin1_decimal] give the exact tables restricted to
    code points below 256 and are used to run the code on examples. *)

From Stdlib Require Import ZArith List Bool Lia Sorting.Sorted Arith.PeanoNat.
From Stdlib Require Import DecimalNat.
From Stdlib Require String Ascii.
Import String.StringSyntax.
Delimit Scope string_scope with string.
Import ListNotations.
Open Scope Z_scope.

Definition pystr := list Z.

(** ** Python builtins on strings *)

(** [str.isspace] on one code point (the set used by [str.strip()]). *)
Definition is_space_cp (c : Z) : bool :=
  ((9 <=? c) && (c <=? 13)) || ((28 <=? c) && (c <=? 32)) ||
  (c =? 133) || (c =? 160) || (c =? 5760) ||
  ((8192 <=? c) && (c <=? 8202)) || (c =? 8232) || (c =? 8233) ||
  (c =? 8239) || (c =? 8287) || (c =? 12288).

Fixpoint lstrip (s : pystr) : pystr :=
  match s with
  | [] => []
  | c :: s' => if is_space_cp c then lstrip s' else s
  end.

(** [str.strip()] *)
Definition strip (s : pystr) : pystr := rev (lstrip (rev (lstrip s))).

Definition is_hex_cp (c : Z) : bool :=
  ((48 <=? c) && (c <=? 57)) || ((65 <=? c) && (c <=? 70)) ||
  ((97 <=? c) && (c <=? 102)).

(** [re.match(r'^#[0-9a-fA-F]{6}$', s)] is truthy; [$] also matches
    before a single trailing newline. *)
Definition is_color (s : pystr) : bool :=
  match s with
  | h :: c1 :: c2 :: c3 :: c4 :: c5 :: c6 :: tl =>
      (h =? 35) && is_hex_cp c1 && is_hex_cp c2 && is_hex_cp c3 &&
      is_hex_cp c4 && is_hex_cp c5 && is_hex_cp c6 &&
      match tl with
      | [] => true
      | [n] => n =? 10
      | _ => false
      end
  | _ => false
  end.

Section Unicode.

(** [isdigit_cp c]: [chr(c).isdigit()] (Numeric_Type Digit or Decimal). *)
Variable isdigit_cp : Z -> bool.
(** [decimal_cp c]: the digit value [int()] gives to [chr(c)]
    (General_Category Nd); [None] for characters [int()] rejects. *)
Variable decimal_cp : Z -> option Z.

(** [str.isdigit()] *)
Definition py_isdigit (s : pystr) : bool :=
  match s with
  | [] => false
  | _ => forallb isdigit_cp s
  end.

Fixpoint digits_value (acc : Z) (s : pystr) : option Z :=
  match s with
  | [] => Some acc
  | c :: s' =>
      match decimal_cp c with
      | Some v => digits_value (acc * 10 + v) s'
      | None => None
      end
  end.

(** [int(s)] on a string made of an optional sign and digit characters;
    [None] when [int()] raises [ValueError]. *)
Definition py_int (s : pystr) : option Z :=
  match s with
  | [] => None
  | c :: ds =>
      if c =? 45 then
        match ds with [] => None | _ => option_map Z.opp (digits_value 0 ds) end
      else if c =? 43 then
        match ds with [] => None | _ => digits_value 0 ds end
      else digits_value 0 s
  end.

(** ** extract_books *)

(** The dict literal stored in [books[book_number]]. *)
Record BookRecord := {
  book_number : Z;
  color : pystr;
  short_ru : pystr;
  long_ru : pystr;
  short_en : pystr;
  long_en : pystr
}.

(** Effects of one iteration of the scan loop: a store into [books]
    ([books[book_number] = {...}]) or the [print] of the except clause,
    both tagged with the line index [i]. *)
Inductive event :=
| EStore (i : nat) (k : Z) (r : BookRecord)
| EError (i : nat).

(** The [while i < len(lines)] loop, run on the suffix [ls] of [lines]
    starting at index [i].  [i + 5 >= len(lines)] is the case where
    fewer than five lines follow the colour line: [break]. *)
Fixpoint scan (i : nat) (ls : list pystr) {struct ls} : list event :=
  match ls with
  | [] => []
  | l :: rest =>
      let line := strip l in
      if is_color line then
        match rest with
        | n :: a :: b :: c :: d :: rest' =>
            let number_line := strip n in
            if py_isdigit number_line then
              match py_int number_line with
              | Some book_number =>
                  EStore i book_number
                    {| book_number := book_number; color := line;
                       short_ru := strip a; long_ru := strip b;
                       short_en := strip c; long_en := strip d |}
                  :: scan (i + 6) rest'
              | None => EError i :: scan (S i) rest
              end
            else scan (S i) rest
        | _ => []
        end
      else scan (S i) rest
  end.

(** A Python dict with [int] keys: assignment to an existing key keeps
    its position and replaces the value, a new key goes last. *)
Fixpoint dict_set {V} (k : Z) (v : V) (d : list (Z * V)) : list (Z * V) :=
  match d with
  | [] => [(k, v)]
  | (k', v') :: d' => if k' =? k then (k, v) :: d' else (k', v') :: dict_set k v d'
  end.

Fixpoint dict_get {V} (k : Z) (d : list (Z * V)) : option V :=
  match d with
  | [] => None
  | (k', v') :: d' => if k' =? k then Some v' else dict_get k d'
  end.

Definition apply_event (books : list (Z * BookRecord)) (e : event) :=
  match e with
  | EStore _ k r => dict_set k r books
  | EError _ => books
  end.

Definition books_of (evs : list event) : list (Z * BookRecord) :=
  fold_left apply_event evs [].

(** Lines printed by [extract_books]. *)
Inductive printed :=
| PError (i : nat)
| PCount (n : nat).

Definition errors_of (evs : list event) : list printed :=
  flat_map (fun e => match e with EError i => [PError i] | _ => [] end) evs.

(** [extract_books()] on the list returned by [f.readlines()]: the dict
    returned and the lines printed. *)
Definition extract_books (lines : list pystr) : list (Z * BookRecord) * list printed :=
  let evs := scan 0 lines in
  let books := books_of evs in
  (books, errors_of evs ++ [PCount (length books)]).

(** ** Claim-side notions *)

(** A well-formed six-line block at the head of [ls]: a colour line, a
    numeric line that [int()] accepts, and four name lines; the book
    number and the record made of the stripped lines. *)
Definition block_at (ls : list pystr) : option (Z * BookRecord) :=
  match ls with
  | l :: n :: a :: b :: c :: d :: _ =>
      if is_color (strip l) && py_isdigit (strip n) then
        match py_int (strip n) with
        | Some k => Some (k, {| book_number := k; color := strip l;
                                short_ru := strip a; long_ru := strip b;
                                short_en := strip c; long_en := strip d |})
        | None => None
        end
      else None
  | _ => None
  end.

Definition stored_keys (evs : list event) : list Z :=
  flat_map (fun e => match e with EStore _ k _ => [k] | _ => [] end) evs.

Definition store_positions (evs : list event) : list nat :=
  flat_map (fun e => match e with EStore i _ _ => [i] | _ => [] end) evs.

Definition error_positions (evs : list event) : list nat :=
  flat_map (fun e => match e with EError i => [i] | _ => [] end) evs.

Definition event_index (e : event) : nat :=
  match e with EStore i _ _ => i | EError i => i end.

(** ** Serialisation of the keys of books.json *)

Fixpoint uint_cps (d : Decimal.uint) : pystr :=
  match d with
  | Decimal.Nil => []
  | Decimal.D0 d => 48 :: uint_cps d
  | Decimal.D1 d => 49 :: uint_cps d
  | Decimal.D2 d => 50 :: uint_cps d
  | Decimal.D3 d => 51 :: uint_cps d
  | Decimal.D4 d => 52 :: uint_cps d
  | Decimal.D5 d => 53 :: uint_cps d
  | Decimal.D6 d => 54 :: uint_cps d
  | Decimal.D7 d => 55 :: uint_cps d
  | Decimal.D8 d => 56 :: uint_cps d
  | Decimal.D9 d => 57 :: uint_cps d
  end.

(** [str(k)] for an [int] [k]: [json.dump] writes the [int] keys of a
    dict as these strings. *)
Definition py_str (k : Z) : pystr :=
  let digits := uint_cps (Nat.to_uint (Z.abs_nat k)) in
  if k <? 0 then 45 :: digits else digits.

(** The keys of the JSON object written by [json.dump(books, f, ...)], in
    order. *)
Definition json_keys (books : list (Z * BookRecord)) : list pystr :=
  map (fun kv => py_str (fst kv)) books.

(** Reading books.json back and applying [int()] to its keys. *)
Definition decoded_keys (books : list (Z * BookRecord)) : list (option Z) :=
  map py_int (json_keys books).

End Unicode.

(** Exact tables for code points below 256: [0-9] are decimal digits,
    [U+00B2], [U+00B3], [U+00B9] (superscripts) are digits [int()] rejects. *)
Definition latin1_isdigit (c : Z) : bool :=
  ((48 <=? c) && (c <=? 57)) || (c =? 178) || (c =? 179) || (c =? 185).

Definition latin1_decimal (c : Z) : option Z :=
  if (48 <=? c) && (c <=? 57) then Some (c - 48) else None.

Fixpoint cps_of_string (s : String.string) : pystr :=
  match s with
  | String.EmptyString => []
  | String.String a s' => Z.of_nat (Ascii.nat_of_ascii a) :: cps_of_string s'
  end.

(** Example inputs for [extract_books] (lists of lines). *)

(** The example of the spec. *)
Definition spec_example_lines : list pystr :=
  map cps_of_string ["#1A2B3C"; "7"; "Short"; "Long"; "Shrt"; "Lng"]%string.

(** Two well-formed blocks with the same book number 7. *)
Definition duplicate_lines : list pystr :=
  map cps_of_string ["#1A2B3C"; "7"; "A"; "A"; "A"; "A";
                     "#1A2B3C"; "7"; "B"; "B"; "B"; "B"]%string.

(** A well-formed block (number [k2]) starting at line 2, inside the
    block (number 1) starting at line 0. *)
Definition overlap_lines (k2 : String.string) : list pystr :=
  map cps_of_string ["#000000"; "1"; "#111111"; k2; "a"; "b"; "c"; "d"]%string.
Arguments overlap_lines k2%_string.

(** A colour line followed by a non-numeric line, then a block. *)
Definition false_positive_lines : list pystr :=
  map cps_of_string ["#000000"; "x"; "#111111"; "2"; "a"; "b"; "c"; "d"]%string.

(** A colour line with only two lines after it. *)
Definition truncated_lines : list pystr :=
  map cps_of_string ["#000000"; "1"; "a"]%string.

(** A block whose number line is [U+00B2] (superscript two):
    [isdigit()] holds but [int()] raises. *)
Definition superscript_lines : list pystr :=
  [cps_of_string "#000000"%string; [178]] ++ map cps_of_string ["a"; "b"; "c"; "d"]%string.

Definition mk_record (k : Z) (col sr lr se le : String.string) : BookRecord :=
  {| book_number := k; color := cps_of_string col;
     short_ru := cps_of_string sr; long_ru := cps_of_string lr;
     short_en := cps_of_string se; long_en := cps_of_string le |}.
Arguments mk_record k (col sr lr se le)%_string.

Definition spec_example_record : BookRecord :=
  mk_record 7 "#1A2B3C" "Short" "Long" "Shrt" "Lng".
Definition duplicate_record_a : BookRecord := mk_record 7 "#1A2B3C" "A" "A" "A" "A".
Definition duplicate_record_b : BookRecord := mk_record 7 "#1A2B3C" "B" "B" "B" "B".
Definition overlap_record_outer (k1 : String.string) : BookRecord :=
  mk_record 1 "#000000" "#111111" k1 "a" "b".
Arguments overlap_record_outer k1%_string.
Definition overlap_record_inner (k : Z) : BookRecord :=
  mk_record k "#111111" "a" "b" "c" "d".

(** ** extract_plan *)

Module Plan.

(** One row of [SELECT * FROM reading_plan ORDER BY day, item], with the
    names the loop unpacks it into. *)
Record row := {
  day : Z;
  evening : Z;
  item : Z;
  book_num : Z;
  start_ch : Z;
  start_v : Z;
  end_ch : Z;
  end_v : Z
}.

(** The dict appended to [day_items]. *)
Definition reading_item := list (String.string * Z).

Definition mk_item (r : row) : reading_item :=
  [("book_number", book_num r); ("start_chapter", start_ch r);
   ("start_verse", start_v r); ("end_chapter", end_ch r);
   ("end_verse", end_v r)]%string.

(** The dict [{"day": ..., "readings": ...}] appended to [plan]. *)
Record DayPlan := {
  dp_day : Z;
  readings : list reading_item
}.

(** Local variables of the loop. *)
Record state := {
  plan : list DayPlan;
  current_day : Z;
  day_items : list reading_item
}.

Definition init : state := {| plan := []; current_day := -1; day_items := [] |}.

(** One iteration of [for row in rows]. *)
Definition step (st : state) (r : row) : state :=
  let st1 :=
    if negb (day r =? current_day st) then
      {| plan := if negb (current_day st =? -1)
                 then plan st ++ [{| dp_day := current_day st; readings := day_items st |}]
                 else plan st;
         current_day := day r;
         day_items := [] |}
    else st in
  {| plan := plan st1; current_day := current_day st1;
     day_items := day_items st1 ++ [mk_item r] |}.

(** The [plan] list returned by [extract_plan()] for the rows fetched. *)
Definition extract_plan (rows : list row) : list DayPlan :=
  let st := fold_left step rows init in
  match day_items st with
  | [] => plan st
  | _ => plan st ++ [{| dp_day := current_day st; readings := day_items st |}]
  end.

(** *** Runs of rows with equal [day] *)

(** [runs_from d g rows]: the maximal runs of consecutive rows with equal
    day, the first one being the open run [(d, g)]; the closed runs and the
    last (open) run. *)
Fixpoint runs_from (d : Z) (g : list row) (rows : list row)
  : list (Z * list row) * (Z * list row) :=
  match rows with
  | [] => ([], (d, g))
  | r :: rest =>
      if day r =? d then runs_from d (g ++ [r]) rest
      else let '(cl, op) := runs_from (day r) [r] rest in ((d, g) :: cl, op)
  end.

Definition runs (rows : list row) : list (Z * list row) :=
  match rows with
  | [] => []
  | r :: rest => let '(cl, op) := runs_from (day r) [r] rest in cl ++ [op]
  end.

Definition plan_of_run (g : Z * list row) : DayPlan :=
  {| dp_day := fst g; readings := map mk_item (snd g) |}.

Definition not_sentinel (g : Z * list row) : bool := negb (fst g =? -1).

(** The runs that end up in the output: every run except the last one is
    dropped when its day is [-1]. *)
Definition flushed (rs : list (Z * list row)) : list (Z * list row) :=
  match rs with
  | [] => []
  | g :: _ => filter not_sentinel (removelast rs) ++ [last rs g]
  end.

Definition runs_of (p : list (Z * list row) * (Z * list row)) :=
  fst p ++ [snd p].

Definition day_lt (a b : Z * list row) : Prop := fst a < fst b.

(** Rows in the order of [ORDER BY day, item]. *)
Definition row_le (a b : row) : Prop :=
  day a < day b \/ (day a = day b /\ item a <= item b).

(** [a] and [b] agree on every column but [evening]. *)
Definition same_but_evening (a b : row) : Prop :=
  day a = day b /\ item a = item b /\ book_num a = book_num b /\
  start_ch a = start_ch b /\ start_v a = start_v b /\
  end_ch a = end_ch b /\ end_v a = end_v b.

(** *** The [info] table *)

(** A Python dict with [str] keys. *)
Fixpoint info_set {V} (k : pystr) (v : V) (d : list (pystr * V)) : list (pystr * V) :=
  match d with
  | [] => [(k, v)]
  | (k', v') :: d' =>
      if list_eq_dec Z.eq_dec k' k then (k, v) :: d' else (k', v') :: info_set k v d'
  end.

Fixpoint info_get {V} (k : pystr) (d : list (pystr * V)) : option V :=
  match d with
  | [] => None
  | (k', v') :: d' => if list_eq_dec Z.eq_dec k' k then Some v' else info_get k d'
  end.

(** [info = {row[0]: row[1] for row in cursor.fetchall()}] on the rows of
    [SELECT name, value FROM info]. *)
Definition info_step {V} (d : list (pystr * V)) (row : pystr * V) : list (pystr * V) :=
  info_set (fst row) (snd row) d.

Definition extract_info {V} (rows : list (pystr * V)) : list (pystr * V) :=
  fold_left info_step rows [].

(** Rows of the example of the spec: [(1,0,1,40,1,1,1,5)],
    [(1,0,2,41,1,1,1,3)], [(2,0,1,42,1,1,1,4)], and the same rows with
    [evening = 1]. *)
Definition mk_row (d e i b sc sv ec ev : Z) : row :=
  {| day := d; evening := e; item := i; book_num := b;
     start_ch := sc; start_v := sv; end_ch := ec; end_v := ev |}.

Definition example_rows : list row :=
  [mk_row 1 0 1 40 1 1 1 5; mk_row 1 0 2 41 1 1 1 3; mk_row 2 0 1 42 1 1 1 4].

Definition example_rows_evening : list row :=
  [mk_row 1 1 1 40 1 1 1 5; mk_row 1 1 2 41 1 1 1 3; mk_row 2 1 1 42 1 1 1 4].

(** Rows of day -1 followed by a row of day 1. *)
Definition sentinel_row_a : row := mk_row (-1) 0 1 40 1 1 1 5.
Definition sentinel_row_b : row := mk_row 1 0 1 41 1 1 1 3.
Definition sentinel_rows : list row := [sentinel_row_a; sentinel_row_b].

End Plan.

(** ** Proofs about extract_plan *)

Module PlanFacts.
Import Plan.

Lemma step_same_day (st : state) (r : row) :
  day r = current_day st ->
  step st r = {| plan := plan st; current_day := current_day st;
                 day_items := day_items st ++ [mk_item r] |}.
Proof. intros H. unfold step. rewrite H, Z.eqb_refl. reflexivity. Qed.

(** Loop invariant: running the loop from an open run [(d, g)] closes the
    runs of [runs_from] and appends the closed ones whose day is not [-1]. *)
Lemma fold_step_runs (rows : list row) :
  forall pl d g,
  fold_left step rows {| plan := pl; current_day := d; day_items := map mk_item g |} =
  let '(cl, op) := runs_from d g rows in
  {| plan := pl ++ map plan_of_run (filter not_sentinel cl);
     current_day := fst op; day_items := map mk_item (snd op) |}.
Proof.
  induction rows as [|r rest IH]; intros pl d g; cbn [fold_left runs_from].
  - rewrite app_nil_r. reflexivity.
  - destruct (day r =? d) eqn:Hd.
    + apply Z.eqb_eq in Hd.
      rewrite step_same_day by exact Hd. cbn [plan current_day day_items].
      replace (map mk_item g ++ [mk_item r]) with (map mk_item (g ++ [r]))
        by (rewrite map_app; reflexivity).
      apply IH.
    + unfold step. cbn [plan current_day day_items]. rewrite Hd.
      cbn [negb plan current_day day_items].
      change ([] ++ [mk_item r]) with (map mk_item [r]).
      rewrite IH. destruct (runs_from (day r) [r] rest) as [cl op].
      cbn [filter]. change (not_sentinel (d, g)) with (negb (d =? -1)).
      destruct (d =? -1); cbn [negb map];
        [reflexivity | rewrite <- app_assoc; reflexivity].
Qed.

Lemma runs_from_open_nonempty (rows : list row) :
  forall d g, g <> [] -> snd (snd (runs_from d g rows)) <> [].
Proof.
  induction rows as [|r rest IH]; intros d g Hg; cbn [runs_from].
  - exact Hg.
  - destruct (day r =? d).
    + apply IH. destruct g; discriminate.
    + specialize (IH (day r) [r] ltac:(discriminate)).
      destruct (runs_from (day r) [r] rest). exact IH.
Qed.

(** The output of the loop, described by runs: one [DayPlan] per run,
    except that runs of day [-1] other than the last are lost. *)
Lemma extract_plan_runs (rows : list row) :
  extract_plan rows = map plan_of_run (flushed (runs rows)).
Proof.
  destruct rows as [|r rest]; [reflexivity|].
  unfold extract_plan, runs. cbn [fold_left].
  assert (Hinit : step init r =
    {| plan := []; current_day := day r; day_items := map mk_item [r] |}).
  { unfold step, init; cbn [current_day plan day_items].
    destruct (day r =? -1) eqn:E; cbn [negb].
    - apply Z.eqb_eq in E. rewrite E. reflexivity.
    - reflexivity. }
  rewrite Hinit, fold_step_runs.
  pose proof (runs_from_open_nonempty rest (day r) [r] ltac:(discriminate)) as Hne.
  destruct (runs_from (day r) [r] rest) as [cl [d' g']]. cbn [snd fst plan current_day day_items] in *.
  destruct g' as [|x g'']; [contradiction|].
  cbn [map app].
  unfold flushed. destruct (cl ++ [(d', x :: g'')]) as [|h t] eqn:E.
  { destruct cl; discriminate. }
  rewrite <- E, removelast_last, last_last, map_app. reflexivity.
Qed.

(** *** Runs *)

Lemma runs_from_concat (rows : list row) :
  forall d g, concat (map snd (runs_of (runs_from d g rows))) = g ++ rows.
Proof.
  induction rows as [|r rest IH]; intros d g; cbn [runs_from].
  - unfold runs_of; cbn. rewrite !app_nil_r. reflexivity.
  - destruct (day r =? d).
    + rewrite IH, <- app_assoc. reflexivity.
    + specialize (IH (day r) [r]). unfold runs_of in *.
      destruct (runs_from (day r) [r] rest) as [cl op]. cbn in *.
      rewrite IH. reflexivity.
Qed.

Lemma runs_from_homogeneous (rows : list row) :
  forall d g, (forall x, In x g -> day x = d) ->
  forall h, In h (runs_of (runs_from d g rows)) ->
  forall x, In x (snd h) -> day x = fst h.
Proof.
  induction rows as [|r rest IH]; intros d g Hg h Hh; cbn [runs_from] in Hh.
  - unfold runs_of in Hh; cbn in Hh. destruct Hh as [<-|[]]. exact Hg.
  - destruct (day r =? d) eqn:Hd.
    + apply Z.eqb_eq in Hd. refine (IH d (g ++ [r]) _ h Hh).
      intros x Hx. apply in_app_or in Hx. destruct Hx as [Hx|[<-|[]]]; auto.
    + specialize (IH (day r) [r]). unfold runs_of in *.
      destruct (runs_from (day r) [r] rest) as [cl op]. cbn in Hh.
      destruct Hh as [<-|Hh].
      * exact Hg.
      * apply IH; [|exact Hh]. intros x [<-|[]]. reflexivity.
Qed.

Lemma runs_from_days (rows : list row) :
  forall d g h, In h (runs_of (runs_from d g rows)) ->
  fst h = d \/ exists x, In x rows /\ fst h = day x.
Proof.
  induction rows as [|r rest IH]; intros d g h Hh; cbn [runs_from] in Hh.
  - unfold runs_of in Hh; cbn in Hh. destruct Hh as [<-|[]]. left; reflexivity.
  - destruct (day r =? d).
    + destruct (IH d (g ++ [r]) h Hh) as [E|[x [Hx E]]].
      * left; exact E.
      * right; exists x; split; [right; exact Hx | exact E].
    + pose proof (IH (day r) [r]) as IH'. unfold runs_of in *.
      destruct (runs_from (day r) [r] rest) as [cl op]. cbn in Hh.
      destruct Hh as [<-|Hh].
      * left; reflexivity.
      * destruct (IH' h Hh) as [E|[x [Hx E]]].
        -- right; exists r; split; [left; reflexivity | exact E].
        -- right; exists x; split; [right; exact Hx | exact E].
Qed.

Lemma row_le_trans : RelationClasses.Transitive row_le.
Proof. intros a b c; unfold row_le; lia. Qed.

Lemma runs_from_sorted (rows : list row) :
  forall d g, Sorted row_le rows -> (forall x, In x rows -> d <= day x) ->
  StronglySorted day_lt (runs_of (runs_from d g rows)).
Proof.
  induction rows as [|r rest IH]; intros d g Hs Hge; cbn [runs_from].
  - repeat constructor.
  - apply Sorted_inv in Hs as [Hs Hhd].
    assert (Hrest : forall x, In x rest -> day r <= day x).
    { intros x Hx. apply Sorted_StronglySorted in Hs; [|exact row_le_trans].
      assert (Hss : StronglySorted row_le (r :: rest)).
      { constructor; [exact Hs|].
        destruct rest as [|y rest']; [constructor|].
        apply HdRel_inv in Hhd. apply StronglySorted_inv in Hs as [_ Hall].
        apply Forall_forall. intros z [<-|Hz]; [exact Hhd|].
        eapply row_le_trans; [exact Hhd|]. rewrite Forall_forall in Hall. auto. }
      apply StronglySorted_inv in Hss as [_ Hall]. rewrite Forall_forall in Hall.
      specialize (Hall x Hx). unfold row_le in Hall. lia. }
    destruct (day r =? d) eqn:Hd.
    + apply Z.eqb_eq in Hd. apply IH; [exact Hs|]. intros x Hx. rewrite <- Hd. auto.
    + apply Z.eqb_neq in Hd.
      assert (Hlt : d < day r) by (specialize (Hge r (or_introl eq_refl)); lia).
      pose proof (IH (day r) [r] Hs Hrest) as IHs.
      pose proof (runs_from_days rest (day r) [r]) as Hdays.
      unfold runs_of in *.
      destruct (runs_from (day r) [r] rest) as [cl op]. cbn in *.
      constructor; [exact IHs|].
      apply Forall_forall. intros h Hh. unfold day_lt; cbn.
      destruct (Hdays h Hh) as [E|[x [Hx E]]]; rewrite E; [lia|].
      specialize (Hrest x Hx). lia.
Qed.

Lemma runs_concat (rows : list row) : concat (map snd (runs rows)) = rows.
Proof.
  destruct rows as [|r rest]; [reflexivity|]. unfold runs.
  pose proof (runs_from_concat rest (day r) [r]) as H. unfold runs_of in H.
  destruct (runs_from (day r) [r] rest). exact H.
Qed.

Lemma runs_homogeneous (rows : list row) :
  forall h, In h (runs rows) -> forall x, In x (snd h) -> day x = fst h.
Proof.
  destruct rows as [|r rest]; [intros _ []|]. unfold runs.
  pose proof (runs_from_homogeneous rest (day r) [r]) as H. unfold runs_of in H.
  destruct (runs_from (day r) [r] rest). apply H.
  intros x [<-|[]]. reflexivity.
Qed.

Lemma runs_sorted (rows : list row) :
  Sorted row_le rows -> StronglySorted day_lt (runs rows).
Proof.
  intros Hs. destruct rows as [|r rest]; [constructor|]. unfold runs.
  apply Sorted_inv in Hs as [Hs' Hhd].
  pose proof (runs_from_sorted rest (day r) [r]) as H. unfold runs_of in H.
  destruct (runs_from (day r) [r] rest). apply H; [exact Hs'|].
  intros x Hx. apply Sorted_StronglySorted in Hs'; [|exact row_le_trans].
  destruct rest as [|y rest']; [destruct Hx|].
  apply HdRel_inv in Hhd. destruct Hx as [<-|Hx]; [unfold row_le in Hhd; lia|].
  apply StronglySorted_inv in Hs' as [_ Hall]. rewrite Forall_forall in Hall.
  specialize (Hall x Hx). unfold row_le in *. lia.
Qed.

(** *** Lists *)

Lemma SS_between {A} (R : A -> A -> Prop) (l1 l2 : list A) :
  StronglySorted R (l1 ++ l2) -> forall x y, In x l1 -> In y l2 -> R x y.
Proof.
  induction l1 as [|a l1 IH]; intros Hs x y Hx Hy; [destruct Hx|].
  cbn in Hs. apply StronglySorted_inv in Hs as [Hs Hall].
  destruct Hx as [<-|Hx].
  - rewrite Forall_forall in Hall. apply Hall, in_or_app. right; exact Hy.
  - eapply IH; eauto.
Qed.

Lemma SS_filter_snoc {A} (R : A -> A -> Prop) (p : A -> bool) (l : list A) (z : A) :
  StronglySorted R (l ++ [z]) -> StronglySorted R (filter p l ++ [z]).
Proof.
  induction l as [|a l IH]; intros Hs; [exact Hs|].
  cbn in Hs. apply StronglySorted_inv in Hs as [Hs Hall].
  cbn [filter]. destruct (p a); [|auto].
  cbn. constructor; [auto|].
  rewrite Forall_forall in *. intros y Hy. apply Hall.
  apply in_app_or in Hy as [Hy|Hy]; apply in_or_app; [left|right; exact Hy].
  apply filter_In in Hy. apply Hy.
Qed.

Lemma SS_map {A B} (R : A -> A -> Prop) (R' : B -> B -> Prop) (f : A -> B) (l : list A) :
  (forall x y, R x y -> R' (f x) (f y)) ->
  StronglySorted R l -> StronglySorted R' (map f l).
Proof.
  intros HR. induction l as [|a l IH]; intros Hs; cbn; [constructor|].
  apply StronglySorted_inv in Hs as [Hs Hall]. constructor; [auto|].
  apply Forall_map. eapply Forall_impl; [|exact Hall]. auto.
Qed.

Lemma filter_all {A} (f : A -> bool) (l : list A) :
  (forall x, In x l -> f x = true) -> filter f l = l.
Proof.
  induction l as [|a l IH]; intros H; cbn; [reflexivity|].
  rewrite (H a (or_introl eq_refl)), IH; [reflexivity|]. intros x Hx. apply H. right; exact Hx.
Qed.

Lemma filter_none {A} (f : A -> bool) (l : list A) :
  (forall x, In x l -> f x = false) -> filter f l = [].
Proof.
  induction l as [|a l IH]; intros H; cbn; [reflexivity|].
  rewrite (H a (or_introl eq_refl)). apply IH. intros x Hx. apply H. right; exact Hx.
Qed.

(** *** Output in terms of runs *)

Lemma flushed_snoc (l : list (Z * list row)) (z : Z * list row) :
  flushed (l ++ [z]) = filter not_sentinel l ++ [z].
Proof.
  unfold flushed. destruct (l ++ [z]) as [|h t] eqn:E; [destruct l; discriminate|].
  rewrite <- E, removelast_last, last_last. reflexivity.
Qed.

Lemma flushed_incl (rs : list (Z * list row)) h : In h (flushed rs) -> In h rs.
Proof.
  destruct rs as [|g t] using rev_ind; [intros []|].
  rewrite flushed_snoc. intros H. apply in_app_or in H as [H|H]; apply in_or_app.
  - left. apply filter_In in H. apply H.
  - right; exact H.
Qed.

Lemma flushed_sorted (rs : list (Z * list row)) :
  StronglySorted day_lt rs -> StronglySorted day_lt (flushed rs).
Proof.
  destruct rs as [|g t] using rev_ind; [intros; constructor|].
  rewrite flushed_snoc. apply SS_filter_snoc.
Qed.

(** In sorted input, a run is exactly the rows of its day. *)
Lemma run_is_filter (rs : list (Z * list row)) :
  StronglySorted day_lt rs ->
  (forall h, In h rs -> forall x, In x (snd h) -> day x = fst h) ->
  forall h, In h rs -> filter (fun r => day r =? fst h) (concat (map snd rs)) = snd h.
Proof.
  induction rs as [|a t IH]; intros Hs Hhom h Hh; [destruct Hh|].
  apply StronglySorted_inv in Hs as [Hs Hall]. rewrite Forall_forall in Hall.
  cbn [map concat]. rewrite filter_app.
  destruct Hh as [<-|Hh].
  - rewrite filter_all, filter_none, app_nil_r; [reflexivity| |].
    + intros x Hx. apply in_concat in Hx as [l [Hl Hx]].
      apply in_map_iff in Hl as [h' [<- Hh']].
      rewrite (Hhom h' (or_intror Hh') x Hx). apply Z.eqb_neq.
      specialize (Hall h' Hh'). unfold day_lt in Hall. lia.
    + intros x Hx. rewrite (Hhom a (or_introl eq_refl) x Hx). apply Z.eqb_refl.
  - rewrite filter_none, IH; [reflexivity|exact Hs| |exact Hh|].
    + intros h' Hh'. apply Hhom. right; exact Hh'.
    + intros x Hx. rewrite (Hhom a (or_introl eq_refl) x Hx). apply Z.eqb_neq.
      specialize (Hall h Hh). unfold day_lt in Hall. lia.
Qed.

Lemma filter_day_items_sorted (d : Z) (l : list row) :
  StronglySorted row_le l ->
  StronglySorted (fun a b => item a <= item b) (filter (fun r => day r =? d) l).
Proof.
  induction l as [|a l IH]; intros Hs; cbn; [constructor|].
  apply StronglySorted_inv in Hs as [Hs Hall].
  destruct (day a =? d) eqn:Ea; [|auto].
  constructor; [auto|]. apply Z.eqb_eq in Ea.
  rewrite Forall_forall in *. intros y Hy. apply filter_In in Hy as [Hy Ey].
  apply Z.eqb_eq in Ey. specialize (Hall y Hy). unfold row_le in Hall. lia.
Qed.

Lemma step_ext (st : state) (r1 r2 : row) :
  same_but_evening r1 r2 -> step st r1 = step st r2.
Proof.
  intros (Hd & Hi & Hb & Hsc & Hsv & Hec & Hev).
  unfold step, mk_item. rewrite Hd, Hb, Hsc, Hsv, Hec, Hev. reflexivity.
Qed.

Lemma fold_step_ext (rows1 rows2 : list row) :
  Forall2 same_but_evening rows1 rows2 ->
  forall st, fold_left step rows1 st = fold_left step rows2 st.
Proof.
  induction 1 as [|r1 r2 l1 l2 Hr _ IH]; intros st; [reflexivity|].
  cbn. rewrite (step_ext st r1 r2 Hr). apply IH.
Qed.

Lemma in_extract_plan (rows : list row) dp :
  In dp (extract_plan rows) -> exists h, In h (runs rows) /\ dp = plan_of_run h.
Proof.
  rewrite extract_plan_runs. intros H. apply in_map_iff in H as [h [<- Hh]].
  exists h. split; [apply flushed_incl; exact Hh|reflexivity].
Qed.

End PlanFacts.

(** ** Claims about extract_plan *)

Module PlanClaims.
Import Plan PlanFacts.

Ltac sorted_rows :=
  repeat (apply Sorted_cons || apply Sorted_nil || apply HdRel_cons || apply HdRel_nil);
  unfold row_le; cbn; lia.

(** C2: with the rows [sentinel_rows], [(-1,0,1,40,1,1,1,5)]
    and [(1,0,1,41,1,1,1,3)], sorted by day then item, the input has two
    distinct days but the output has a single [DayPlan] (day 1): the row of
    day -1 is collected under the sentinel [current_day = -1] and never
    flushed. *)
Theorem extract_plan_day_minus_one_dropped :
  length (nodup Z.eq_dec (map day sentinel_rows)) = 2%nat /\
  length (extract_plan sentinel_rows) = 1%nat /\
  map dp_day (extract_plan sentinel_rows) = [1].
Proof. vm_compute. repeat split. Qed.

(** C3: for rows sorted by day then item, the [DayPlan]s come in strictly
    ascending day order, and the readings of each [DayPlan] are the items of
    exactly the rows of its day, in input order, which is ascending [item]
    order. *)
Theorem extract_plan_ordered (rows : list row) (Hs : Sorted row_le rows) :
  StronglySorted (fun a b => dp_day a < dp_day b) (extract_plan rows) /\
  forall dp, In dp (extract_plan rows) ->
    readings dp = map mk_item (filter (fun r => day r =? dp_day dp) rows) /\
    Sorted (fun a b => item a <= item b) (filter (fun r => day r =? dp_day dp) rows).
Proof.
  split.
  - rewrite extract_plan_runs. apply SS_map with (R := day_lt); [intros x y H; exact H|].
    apply flushed_sorted, runs_sorted, Hs.
  - intros dp Hdp. destruct (in_extract_plan _ _ Hdp) as [h [Hh ->]].
    cbn [dp_day readings plan_of_run].
    assert (E : filter (fun r => day r =? fst h) rows = snd h).
    { rewrite <- (runs_concat rows). apply run_is_filter; [apply runs_sorted, Hs| |exact Hh].
      apply runs_homogeneous. }
    split; [rewrite E; reflexivity|].
    apply StronglySorted_Sorted, filter_day_items_sorted.
    apply Sorted_StronglySorted; [exact row_le_trans|exact Hs].
Qed.

Lemma extract_plan_ordered_witness :
  Sorted row_le example_rows /\
  StronglySorted (fun a b => dp_day a < dp_day b) (extract_plan example_rows).
Proof.
  assert (Hs : Sorted row_le example_rows) by (sorted_rows).
  split; [exact Hs|].
  exact (proj1 (extract_plan_ordered example_rows Hs)).
Defined.

(** C7: the [evening] column has no influence on the plan: rows that agree
    on every other column give the same plan, and no reading item has an
    ["evening"] key. *)
Theorem extract_plan_ignores_evening (rows1 rows2 : list row)
  (H : Forall2 same_but_evening rows1 rows2) :
  extract_plan rows1 = extract_plan rows2 /\
  forall dp ri, In dp (extract_plan rows1) -> In ri (readings dp) ->
    ~ In "evening"%string (map fst ri).
Proof.
  split.
  - unfold extract_plan. rewrite (fold_step_ext _ _ H init). reflexivity.
  - intros dp ri Hdp Hri. destruct (in_extract_plan _ _ Hdp) as [h [_ ->]].
    cbn in Hri. apply in_map_iff in Hri as [x [<- _]]. cbn.
    intros Hin. repeat (destruct Hin as [Hin|Hin]; [discriminate|]). exact Hin.
Qed.

Lemma extract_plan_ignores_evening_witness :
  Forall2 same_but_evening example_rows example_rows_evening /\
  extract_plan example_rows = extract_plan example_rows_evening.
Proof.
  assert (H : Forall2 same_but_evening example_rows example_rows_evening).
  { repeat constructor. }
  split; [exact H|].
  exact (proj1 (extract_plan_ignores_evening _ _ H)).
Defined.

(** C10: [-1] is the "no current day" sentinel of the loop.  In sorted
    input, a run of rows of day -1 followed by further rows is never
    flushed: the output is the [DayPlan]s of the other runs and has no
    [DayPlan] of day -1.  In any input, a [DayPlan] of day -1 is emitted
    only for the last run of rows, when that run has day -1. *)
Theorem extract_plan_sentinel (rows : list row) :
  (Sorted row_le rows ->
   forall pre g post, runs rows = pre ++ g :: post -> fst g = -1 -> post <> [] ->
     extract_plan rows = map plan_of_run (pre ++ post) /\
     forall dp, In dp (extract_plan rows) -> dp_day dp <> -1) /\
  (forall dp, In dp (extract_plan rows) -> dp_day dp = -1 ->
     exists pre g, runs rows = pre ++ [g] /\ fst g = -1 /\ dp = plan_of_run g).
Proof.
  split.
  - intros Hs pre g post Hr Hg Hpost.
    pose proof (runs_sorted rows Hs) as Hss. rewrite Hr in Hss.
    destruct (exists_last Hpost) as [post' [z ->]].
    assert (Hpre : forall h, In h pre -> fst h < -1).
    { intros h Hh. rewrite <- Hg.
      apply (SS_between day_lt pre (g :: post' ++ [z])); [exact Hss|exact Hh|left; reflexivity]. }
    assert (Hafter : forall h, In h (post' ++ [z]) -> -1 < fst h).
    { intros h Hh. rewrite <- Hg.
      apply (SS_between day_lt (pre ++ [g]) (post' ++ [z])); [|apply in_or_app; right; left; reflexivity|exact Hh].
      rewrite <- app_assoc. exact Hss. }
    assert (Eout : extract_plan rows = map plan_of_run (pre ++ post' ++ [z])).
    { rewrite extract_plan_runs, Hr.
      replace (pre ++ g :: post' ++ [z]) with ((pre ++ g :: post') ++ [z])
        by (rewrite <- app_assoc; reflexivity).
      rewrite flushed_snoc, filter_app. cbn [filter].
      replace (not_sentinel g) with false by (unfold not_sentinel; rewrite Hg; reflexivity).
      rewrite !filter_all; [rewrite <- app_assoc; reflexivity| |].
      - intros h Hh. unfold not_sentinel. apply negb_true_iff, Z.eqb_neq.
        specialize (Hafter h (in_or_app _ _ _ (or_introl Hh))). lia.
      - intros h Hh. unfold not_sentinel. apply negb_true_iff, Z.eqb_neq.
        specialize (Hpre h Hh). lia. }
    split; [exact Eout|].
    intros dp Hdp. rewrite Eout in Hdp. apply in_map_iff in Hdp as [h [<- Hh]]. cbn.
    apply in_app_or in Hh as [Hh|Hh]; [specialize (Hpre h Hh)|specialize (Hafter h Hh)]; lia.
  - intros dp Hdp Hd. rewrite extract_plan_runs in Hdp.
    destruct (runs rows) as [|a t] eqn:E; [destruct Hdp|].
    destruct (exists_last (l := a :: t) ltac:(discriminate)) as [l' [z Ez]].
    rewrite Ez, flushed_snoc in Hdp. apply in_map_iff in Hdp as [h [<- Hh]].
    apply in_app_or in Hh as [Hh|[<-|[]]].
    + apply filter_In in Hh as [_ Hn]. unfold not_sentinel in Hn.
      cbn in Hd. rewrite Hd in Hn. discriminate.
    + exists l', z. repeat split; [exact Ez|exact Hd].
Qed.

Lemma extract_plan_sentinel_witness :
  Sorted row_le sentinel_rows /\
  runs sentinel_rows = [] ++ (-1, [sentinel_row_a]) :: [(1, [sentinel_row_b])] /\
  extract_plan sentinel_rows = map plan_of_run [(1, [sentinel_row_b])].
Proof.
  assert (Hs : Sorted row_le sentinel_rows) by (sorted_rows).
  assert (Hr : runs sentinel_rows = [] ++ (-1, [sentinel_row_a]) :: [(1, [sentinel_row_b])])
    by reflexivity.
  split; [exact Hs|split; [exact Hr|]].
  exact (proj1 (proj1 (extract_plan_sentinel sentinel_rows) Hs [] _ _ Hr eq_refl
                  ltac:(discriminate))).
Defined.

End PlanClaims.

(** ** Proofs about extract_books *)

Section BookFacts.

Variable isdigit_cp : Z -> bool.
Variable decimal_cp : Z -> option Z.

(** *** The scan loop *)

Lemma scan_short (ls : list pystr) :
  forall i, (length ls <= 5)%nat -> scan isdigit_cp decimal_cp i ls = [].
Proof.
  induction ls as [|l rest IH]; intros i Hlen; cbn [scan]; [reflexivity|].
  cbn [length] in Hlen.
  destruct (is_color (strip l)).
  - destruct rest as [|n [|a [|b [|c [|d rest']]]]]; try reflexivity.
    cbn [length] in Hlen. lia.
  - apply IH. lia.
Qed.

Lemma scan_block (i : nat) (ls : list pystr) (k : Z) (r : BookRecord) :
  block_at isdigit_cp decimal_cp ls = Some (k, r) ->
  scan isdigit_cp decimal_cp i ls =
    EStore i k r :: scan isdigit_cp decimal_cp (i + 6) (skipn 6 ls).
Proof.
  destruct ls as [|l [|n [|a [|b [|c [|d rest]]]]]]; cbn [block_at]; try discriminate.
  cbn [scan skipn].
  destruct (is_color (strip l)), (py_isdigit isdigit_cp (strip n)); cbn [andb]; try discriminate.
  destruct (py_int decimal_cp (strip n)); intros H; inversion H; reflexivity.
Qed.

(** Every store of the scan is a well-formed block at its line index. *)
Lemma scan_stores_are_blocks (fuel : nat) :
  forall ls i j k r, (length ls <= fuel)%nat ->
  In (EStore j k r) (scan isdigit_cp decimal_cp i ls) ->
  (i <= j)%nat /\ block_at isdigit_cp decimal_cp (skipn (j - i) ls) = Some (k, r).
Proof.
  induction fuel as [|fuel IH]; intros ls i j k r Hlen Hin.
  - destruct ls; [destruct Hin|cbn in Hlen; lia].
  - destruct ls as [|l rest]; [destruct Hin|]. cbn [length] in Hlen.
    cbn [scan] in Hin. destruct (is_color (strip l)) eqn:Ec.
    + destruct rest as [|n [|a [|b [|c [|d rest']]]]]; try destruct Hin.
      cbn [length] in Hlen.
      destruct (py_isdigit isdigit_cp (strip n)) eqn:Ed.
      * destruct (py_int decimal_cp (strip n)) eqn:Ei.
        -- destruct Hin as [Hin|Hin].
           ++ inversion Hin; subst. rewrite Nat.sub_diag. split; [lia|].
              cbn [skipn block_at]. rewrite Ec, Ed, Ei. reflexivity.
           ++ apply IH in Hin as [Hij Hb]; [|lia].
              split; [lia|]. replace (j - i)%nat with (6 + (j - (i + 6)))%nat by lia.
              exact Hb.
        -- destruct Hin as [Hin|Hin]; [discriminate|].
           apply IH in Hin as [Hij Hb]; [|cbn [length]; lia].
           split; [lia|]. replace (j - i)%nat with (S (j - S i)) by lia. exact Hb.
      * apply IH in Hin as [Hij Hb]; [|cbn [length]; lia].
        split; [lia|]. replace (j - i)%nat with (S (j - S i)) by lia. exact Hb.
    + apply IH in Hin as [Hij Hb]; [|lia].
      split; [lia|]. replace (j - i)%nat with (S (j - S i)) by lia. exact Hb.
Qed.

End BookFacts.

(** *** The books dict *)

Lemma dict_set_keys {V} (k : Z) (v : V) (d : list (Z * V)) k' :
  In k' (map fst (dict_set k v d)) <-> k = k' \/ In k' (map fst d).
Proof.
  induction d as [|[k0 v0] d IH]; cbn [dict_set map fst In]; [tauto|].
  destruct (k0 =? k) eqn:E; cbn [map fst In].
  - apply Z.eqb_eq in E. subst. tauto.
  - rewrite IH. tauto.
Qed.

Lemma dict_set_nodup {V} (k : Z) (v : V) (d : list (Z * V)) :
  NoDup (map fst d) -> NoDup (map fst (dict_set k v d)).
Proof.
  induction d as [|[k0 v0] d IH]; cbn [dict_set map fst]; intros Hd.
  - repeat constructor. intros [].
  - inversion Hd as [|? ? Hnin Hd']; subst.
    destruct (k0 =? k) eqn:E; cbn [map fst].
    + apply Z.eqb_eq in E. subst. constructor; assumption.
    + apply Z.eqb_neq in E. constructor; [|auto].
      rewrite dict_set_keys. intros [H|H]; [congruence|contradiction].
Qed.

Lemma dict_get_set_eq {V} (k : Z) (v : V) (d : list (Z * V)) :
  dict_get k (dict_set k v d) = Some v.
Proof.
  induction d as [|[k0 v0] d IH]; cbn [dict_set dict_get]; [rewrite Z.eqb_refl; reflexivity|].
  destruct (k0 =? k) eqn:E; cbn [dict_get].
  - rewrite Z.eqb_refl. reflexivity.
  - rewrite E. exact IH.
Qed.

Lemma dict_get_set_neq {V} (k k' : Z) (v : V) (d : list (Z * V)) :
  k' <> k -> dict_get k' (dict_set k v d) = dict_get k' d.
Proof.
  intros Hne. induction d as [|[k0 v0] d IH]; cbn [dict_set dict_get].
  - apply Z.eqb_neq in Hne. rewrite Z.eqb_sym, Hne. reflexivity.
  - destruct (k0 =? k) eqn:E; cbn [dict_get].
    + apply Z.eqb_eq in E. subst.
      assert (E' : (k =? k') = false) by (apply Z.eqb_neq; congruence).
      rewrite E'. reflexivity.
    + destruct (k0 =? k'); [reflexivity|exact IH].
Qed.

Lemma dict_get_in_keys {V} (k : Z) (v : V) (d : list (Z * V)) :
  dict_get k d = Some v -> In k (map fst d).
Proof.
  induction d as [|[k0 v0] d IH]; cbn [dict_get map fst In]; [discriminate|].
  destruct (k0 =? k) eqn:E; intros H.
  - left. apply Z.eqb_eq, E.
  - right. auto.
Qed.

Lemma fold_events_keys (evs : list event) :
  forall d k, In k (map fst (fold_left apply_event evs d)) <->
              In k (map fst d) \/ In k (stored_keys evs).
Proof.
  induction evs as [|e evs IH]; intros d k; cbn [fold_left stored_keys flat_map In]; [tauto|].
  rewrite IH. destruct e as [i k' r|i]; cbn [apply_event app In].
  - rewrite dict_set_keys. fold (stored_keys evs). tauto.
  - fold (stored_keys evs). tauto.
Qed.

Lemma fold_events_nodup (evs : list event) :
  forall d, NoDup (map fst d) -> NoDup (map fst (fold_left apply_event evs d)).
Proof.
  induction evs as [|e evs IH]; intros d Hd; cbn [fold_left]; [exact Hd|].
  apply IH. destruct e; cbn [apply_event]; [apply dict_set_nodup|]; exact Hd.
Qed.

Lemma fold_events_get_other (evs : list event) :
  forall d k, ~ In k (stored_keys evs) ->
  dict_get k (fold_left apply_event evs d) = dict_get k d.
Proof.
  induction evs as [|e evs IH]; intros d k Hk; cbn [fold_left]; [reflexivity|].
  destruct e as [i k' r|i]; cbn [stored_keys flat_map app In] in Hk; fold (stored_keys evs) in Hk.
  - rewrite IH by tauto. cbn [apply_event]. apply dict_get_set_neq. intros ->. tauto.
  - apply IH. exact Hk.
Qed.

Lemma books_of_nodup (evs : list event) : NoDup (map fst (books_of evs)).
Proof. apply fold_events_nodup. constructor. Qed.

Lemma books_of_keys (evs : list event) k :
  In k (map fst (books_of evs)) <-> In k (stored_keys evs).
Proof. unfold books_of. rewrite fold_events_keys. cbn. tauto. Qed.

Lemma in_stored_keys (evs : list event) k :
  In k (stored_keys evs) <-> exists i r, In (EStore i k r) evs.
Proof.
  induction evs as [|e evs IH]; cbn [stored_keys flat_map In].
  - split; [intros []|intros (? & ? & [])].
  - fold (stored_keys evs). destruct e as [i k' r|i]; cbn [app In].
    + rewrite IH. split.
      * intros [<-|(j & r' & H)]; [exists i, r; left; reflexivity|exists j, r'; right; exact H].
      * intros (j & r' & [H|H]); [left; congruence|right; exists j, r'; exact H].
    + rewrite IH. split.
      * intros (j & r' & H). exists j, r'. right. exact H.
      * intros (j & r' & [H|H]); [discriminate|exists j, r'; exact H].
Qed.

(** The last store of a key wins, and the key occurs once in the dict. *)
Lemma books_of_last_store (pre post : list event) (i : nat) (k : Z) (r : BookRecord) :
  ~ In k (stored_keys post) ->
  dict_get k (books_of (pre ++ EStore i k r :: post)) = Some r /\
  count_occ Z.eq_dec (map fst (books_of (pre ++ EStore i k r :: post))) k = 1%nat.
Proof.
  intros Hk.
  assert (Hget : dict_get k (books_of (pre ++ EStore i k r :: post)) = Some r).
  { unfold books_of. rewrite fold_left_app. cbn [fold_left].
    rewrite fold_events_get_other by exact Hk. cbn [apply_event]. apply dict_get_set_eq. }
  split; [exact Hget|].
  pose proof (books_of_nodup (pre ++ EStore i k r :: post)) as Hnd.
  rewrite (NoDup_count_occ Z.eq_dec) in Hnd. specialize (Hnd k).
  apply dict_get_in_keys in Hget. apply (count_occ_In Z.eq_dec) in Hget. lia.
Qed.

Lemma books_of_length (evs : list event) :
  length (books_of evs) = length (nodup Z.eq_dec (stored_keys evs)).
Proof.
  rewrite <- (length_map fst). apply Nat.le_antisymm; apply NoDup_incl_length.
  - apply books_of_nodup.
  - intros k Hk. apply nodup_In, books_of_keys, Hk.
  - apply NoDup_nodup.
  - intros k Hk. apply books_of_keys, (nodup_In Z.eq_dec), Hk.
Qed.

(** *** [int(str(k)) = k] *)

Section Digits.

Variable decimal_cp : Z -> option Z.

(** The ASCII digits are decimal digits with their usual value. *)
Hypothesis decimal_ascii : forall c, 48 <= c <= 57 -> decimal_cp c = Some (c - 48).

Lemma digits_value_uint (d : Decimal.uint) :
  forall acc, digits_value decimal_cp (Z.of_nat acc) (uint_cps d) =
              Some (Z.of_nat (Nat.of_uint_acc d acc)).
Proof.
  induction d as [|d IH|d IH|d IH|d IH|d IH|d IH|d IH|d IH|d IH|d IH]; intros acc;
    cbn [uint_cps digits_value Nat.of_uint_acc]; [reflexivity|..];
    rewrite decimal_ascii by lia; rewrite <- IH; f_equal;
    rewrite Nat.tail_mul_spec; lia.
Qed.

Lemma uint_cps_to_uint (n : nat) :
  exists c ds, uint_cps (Nat.to_uint n) = c :: ds /\ 48 <= c <= 57.
Proof.
  assert (Hne : Nat.to_uint n <> Decimal.Nil).
  { destruct n as [|n]; [discriminate|]. intros E.
    pose proof (DecimalNat.Unsigned.of_to (S n)) as H. rewrite E in H. discriminate. }
  destruct (Nat.to_uint n); [contradiction|..]; eexists; eexists; split; try reflexivity; lia.
Qed.

Lemma py_int_py_str (k : Z) : py_int decimal_cp (py_str k) = Some k.
Proof.
  unfold py_str.
  destruct (uint_cps_to_uint (Z.abs_nat k)) as (c & ds & E & Hc). rewrite E.
  pose proof (digits_value_uint (Nat.to_uint (Z.abs_nat k)) 0) as Hv.
  rewrite E in Hv. change (Nat.of_uint_acc _ 0) with (Nat.of_uint (Nat.to_uint (Z.abs_nat k))) in Hv.
  rewrite DecimalNat.Unsigned.of_to, Nat2Z.inj_abs_nat in Hv. cbn [Z.of_nat] in Hv.
  destruct (k <? 0) eqn:Hk.
  - cbn [py_int]. rewrite Z.eqb_refl, Hv. cbn [option_map]. f_equal.
    apply Z.ltb_lt in Hk. lia.
  - apply Z.ltb_ge in Hk. unfold py_int.
    replace (c =? 45) with false by (symmetry; apply Z.eqb_neq; lia).
    replace (c =? 43) with false by (symmetry; apply Z.eqb_neq; lia).
    rewrite Hv. f_equal. lia.
Qed.

Lemma decoded_keys_books (books : list (Z * BookRecord)) :
  decoded_keys decimal_cp books = map (fun kv => Some (fst kv)) books.
Proof.
  unfold decoded_keys, json_keys. rewrite map_map. apply map_ext.
  intros kv. apply py_int_py_str.
Qed.

End Digits.

(** ** Claims about extract_books *)

Section BookClaims.

Variable isdigit_cp : Z -> bool.
Variable decimal_cp : Z -> option Z.

(** C1 (amended): when the scan reaches a line where a well-formed block
    starts, it stores a record keyed by the block's number, with the
    block's stripped lines as fields, and resumes six lines later.  In the
    returned dict a stored key occurs once and holds the record of the last
    block stored with that number. *)
Theorem scan_stores_reached_block :
  (forall i ls k r, block_at isdigit_cp decimal_cp ls = Some (k, r) ->
     scan isdigit_cp decimal_cp i ls =
       EStore i k r :: scan isdigit_cp decimal_cp (i + 6) (skipn 6 ls) /\
     py_int decimal_cp (strip (nth 1 ls [])) = Some k /\ book_number r = k /\
     color r = strip (nth 0 ls []) /\ short_ru r = strip (nth 2 ls []) /\
     long_ru r = strip (nth 3 ls []) /\ short_en r = strip (nth 4 ls []) /\
     long_en r = strip (nth 5 ls [])) /\
  (forall lines pre j k r post,
     scan isdigit_cp decimal_cp 0 lines = pre ++ EStore j k r :: post ->
     ~ In k (stored_keys post) ->
     dict_get k (fst (extract_books isdigit_cp decimal_cp lines)) = Some r /\
     count_occ Z.eq_dec (map fst (fst (extract_books isdigit_cp decimal_cp lines))) k = 1%nat).
Proof.
  split.
  - intros i ls k r Hb. split; [apply scan_block, Hb|].
    destruct ls as [|l [|n [|a [|b [|c [|d rest]]]]]]; cbn [block_at] in Hb; try discriminate.
    destruct (is_color (strip l) && py_isdigit isdigit_cp (strip n)); [|discriminate].
    destruct (py_int decimal_cp (strip n)) eqn:Ei; [|discriminate].
    inversion Hb; subst. cbn. repeat split; try assumption.
  - intros lines pre j k r post Hs Hk. unfold extract_books. cbn [fst]. rewrite Hs.
    apply books_of_last_store, Hk.
Qed.

(** C4: a colour line followed by a line that is not [isdigit()] stores
    nothing and the scan goes on exactly as from the next line. *)
Theorem scan_false_positive_color (i : nat) (l n : pystr) (rest : list pystr) :
  is_color (strip l) = true -> py_isdigit isdigit_cp (strip n) = false ->
  scan isdigit_cp decimal_cp i (l :: n :: rest) =
  scan isdigit_cp decimal_cp (S i) (n :: rest).
Proof.
  intros Hc Hn.
  destruct rest as [|a [|b [|c [|d rest']]]];
    try (rewrite !scan_short by (cbn [length]; lia); reflexivity).
  cbn [scan]. rewrite Hc, Hn. reflexivity.
Qed.

(** C5: a colour line with fewer than five lines after it ends the scan:
    no record and no further event. *)
Theorem scan_truncated_block_stops (i : nat) (l : pystr) (rest : list pystr) :
  is_color (strip l) = true -> (length rest < 5)%nat ->
  scan isdigit_cp decimal_cp i (l :: rest) = [].
Proof.
  intros Hc Hlen. cbn [scan]. rewrite Hc.
  destruct rest as [|a [|b [|c [|d [|e rest']]]]]; try reflexivity.
  cbn [length] in Hlen. lia.
Qed.

(** C6: when [int()] raises on the number line, the error is printed with
    the line index and the scan resumes at the next line; the returned dict
    holds exactly the keys of the stored blocks and the printed count is
    the number of distinct stored keys. *)
Theorem scan_int_error_recovers :
  (forall i l n a b c d rest,
     is_color (strip l) = true -> py_isdigit isdigit_cp (strip n) = true ->
     py_int decimal_cp (strip n) = None ->
     scan isdigit_cp decimal_cp i (l :: n :: a :: b :: c :: d :: rest) =
       EError i :: scan isdigit_cp decimal_cp (S i) (n :: a :: b :: c :: d :: rest)) /\
  (forall lines,
     let evs := scan isdigit_cp decimal_cp 0 lines in
     let books := fst (extract_books isdigit_cp decimal_cp lines) in
     snd (extract_books isdigit_cp decimal_cp lines) =
       errors_of evs ++ [PCount (length books)] /\
     (forall k, In k (map fst books) <-> exists j r, In (EStore j k r) evs) /\
     length books = length (nodup Z.eq_dec (stored_keys evs))).
Proof.
  split.
  - intros i l n a b c d rest Hc Hd Hi. cbn [scan]. rewrite Hc, Hd, Hi. reflexivity.
  - intros lines evs books. split; [reflexivity|split].
    + intros k. unfold books, extract_books. cbn [fst].
      rewrite books_of_keys, in_stored_keys. reflexivity.
    + apply books_of_length.
Qed.

(** C8 (amended): the keys read back from books.json and passed to
    [int()] are the keys of the dict, in order; they are exactly the
    numbers of the blocks the scan stored, and each stored block is a
    well-formed block at its line index. *)
Theorem books_json_keys_roundtrip
  (decimal_ascii : forall c, 48 <= c <= 57 -> decimal_cp c = Some (c - 48))
  (lines : list pystr) :
  let books := fst (extract_books isdigit_cp decimal_cp lines) in
  let evs := scan isdigit_cp decimal_cp 0 lines in
  decoded_keys decimal_cp books = map (fun kv => Some (fst kv)) books /\
  (forall k, In (Some k) (decoded_keys decimal_cp books) <->
             exists i r, In (EStore i k r) evs) /\
  (forall i k r, In (EStore i k r) evs ->
     block_at isdigit_cp decimal_cp (skipn i lines) = Some (k, r)).
Proof.
  intros books evs.
  assert (Hdec : decoded_keys decimal_cp books = map (fun kv => Some (fst kv)) books)
    by (apply decoded_keys_books, decimal_ascii).
  split; [exact Hdec|split].
  - intros k. rewrite Hdec.
    assert (E : In (Some k) (map (fun kv => Some (fst kv)) books) <-> In k (map fst books)).
    { rewrite <- (map_map fst Some). split.
      - intros H. apply in_map_iff in H as [k' [Ek Hk']]. inversion Ek; subst. exact Hk'.
      - apply in_map. }
    rewrite E. unfold books, evs, extract_books. cbn [fst].
    rewrite books_of_keys, in_stored_keys. reflexivity.
  - intros i k r Hin.
    destruct (scan_stores_are_blocks isdigit_cp decimal_cp (length lines) lines 0 i k r
                (le_n _) Hin) as [_ Hb].
    rewrite Nat.sub_0_r in Hb. exact Hb.
Qed.

(** C9 (amended): of two stores with the same book number, the later one
    is the record in the dict, and the key occurs once. *)
Theorem books_duplicate_last_wins (lines : list pystr) pre i k r1 mid j r2 post :
  scan isdigit_cp decimal_cp 0 lines = pre ++ EStore i k r1 :: mid ++ EStore j k r2 :: post ->
  ~ In k (stored_keys post) ->
  dict_get k (fst (extract_books isdigit_cp decimal_cp lines)) = Some r2 /\
  count_occ Z.eq_dec (map fst (fst (extract_books isdigit_cp decimal_cp lines))) k = 1%nat.
Proof.
  intros Hs Hk. unfold extract_books. cbn [fst]. rewrite Hs.
  replace (pre ++ EStore i k r1 :: mid ++ EStore j k r2 :: post)
    with ((pre ++ EStore i k r1 :: mid) ++ EStore j k r2 :: post)
    by (rewrite <- app_assoc; reflexivity).
  apply books_of_last_store, Hk.
Qed.

End BookClaims.

(** ** Witnesses and counterexamples for extract_books *)

Lemma scan_stores_reached_block_witness :
  block_at latin1_isdigit latin1_decimal spec_example_lines = Some (7, spec_example_record) /\
  scan latin1_isdigit latin1_decimal 0 spec_example_lines =
    [EStore 0 7 spec_example_record] /\
  dict_get 7 (fst (extract_books latin1_isdigit latin1_decimal spec_example_lines)) =
    Some spec_example_record.
Proof.
  assert (Hb : block_at latin1_isdigit latin1_decimal spec_example_lines =
               Some (7, spec_example_record)) by (vm_compute; reflexivity).
  split; [exact Hb|split].
  - exact (proj1 (proj1 (scan_stores_reached_block latin1_isdigit latin1_decimal) 0%nat _ _ _ Hb)).
  - refine (proj1 (proj2 (scan_stores_reached_block latin1_isdigit latin1_decimal)
                     spec_example_lines [] 0%nat 7 spec_example_record [] _ _)).
    + vm_compute. reflexivity.
    + intros [].
Defined.

(** C1 fails: the block at line 0 of [duplicate_lines] is well-formed, but
    the dict holds only the record of the second block with number 7. *)
Lemma scan_stores_reached_block_counterexample :
  block_at latin1_isdigit latin1_decimal duplicate_lines = Some (7, duplicate_record_a) /\
  fst (extract_books latin1_isdigit latin1_decimal duplicate_lines) = [(7, duplicate_record_b)] /\
  duplicate_record_a <> duplicate_record_b.
Proof.
  split; [vm_compute; reflexivity|split; [vm_compute; reflexivity|]].
  intros H. vm_compute in H. discriminate H.
Qed.

Lemma scan_false_positive_color_witness :
  is_color (strip (cps_of_string "#000000"%string)) = true /\
  py_isdigit latin1_isdigit (strip (cps_of_string "x"%string)) = false /\
  scan latin1_isdigit latin1_decimal 0 false_positive_lines =
  scan latin1_isdigit latin1_decimal 1 (skipn 1 false_positive_lines).
Proof.
  assert (Hc : is_color (strip (cps_of_string "#000000"%string)) = true) by (vm_compute; reflexivity).
  assert (Hn : py_isdigit latin1_isdigit (strip (cps_of_string "x"%string)) = false)
    by (vm_compute; reflexivity).
  split; [exact Hc|split; [exact Hn|]].
  exact (scan_false_positive_color latin1_isdigit latin1_decimal 0 _ _
           (map cps_of_string ["#111111"; "2"; "a"; "b"; "c"; "d"]%string) Hc Hn).
Defined.

Lemma scan_truncated_block_stops_witness :
  is_color (strip (cps_of_string "#000000"%string)) = true /\
  (length (skipn 1 truncated_lines) < 5)%nat /\
  scan latin1_isdigit latin1_decimal 0 truncated_lines = [].
Proof.
  assert (Hc : is_color (strip (cps_of_string "#000000"%string)) = true) by (vm_compute; reflexivity).
  assert (Hl : (length (skipn 1 truncated_lines) < 5)%nat) by (vm_compute; lia).
  split; [exact Hc|split; [exact Hl|]].
  exact (scan_truncated_block_stops latin1_isdigit latin1_decimal 0 _ (skipn 1 truncated_lines) Hc Hl).
Defined.

Lemma scan_int_error_recovers_witness :
  py_isdigit latin1_isdigit (strip [178]) = true /\
  py_int latin1_decimal (strip [178]) = None /\
  scan latin1_isdigit latin1_decimal 0 superscript_lines =
    EError 0 :: scan latin1_isdigit latin1_decimal 1 (skipn 1 superscript_lines) /\
  extract_books latin1_isdigit latin1_decimal superscript_lines = ([], [PError 0; PCount 0]).
Proof.
  assert (Hc : is_color (strip (cps_of_string "#000000"%string)) = true) by (vm_compute; reflexivity).
  assert (Hd : py_isdigit latin1_isdigit (strip [178]) = true) by (vm_compute; reflexivity).
  assert (Hi : py_int latin1_decimal (strip [178]) = None) by (vm_compute; reflexivity).
  split; [exact Hd|split; [exact Hi|split]].
  - exact (proj1 (scan_int_error_recovers latin1_isdigit latin1_decimal) 0%nat _ _ _ _ _ _ [] Hc Hd Hi).
  - vm_compute. reflexivity.
Defined.

Lemma books_json_keys_roundtrip_witness :
  (forall c, 48 <= c <= 57 -> latin1_decimal c = Some (c - 48)) /\
  decoded_keys latin1_decimal (fst (extract_books latin1_isdigit latin1_decimal spec_example_lines)) =
    map (fun kv => Some (fst kv)) (fst (extract_books latin1_isdigit latin1_decimal spec_example_lines)).
Proof.
  assert (Hdec : forall c, 48 <= c <= 57 -> latin1_decimal c = Some (c - 48)).
  { intros c Hc. unfold latin1_decimal.
    replace ((48 <=? c) && (c <=? 57)) with true; [reflexivity|].
    symmetry. apply andb_true_iff. split; apply Z.leb_le; lia. }
  split; [exact Hdec|].
  exact (proj1 (books_json_keys_roundtrip latin1_isdigit latin1_decimal Hdec spec_example_lines)).
Defined.

(** C8 fails: the block at line 2 of [overlap_lines "2"] is well-formed with
    number 2, but the only key read back from books.json is 1. *)
Lemma books_json_keys_roundtrip_counterexample :
  block_at latin1_isdigit latin1_decimal (skipn 2 (overlap_lines "2"))
    = Some (2, overlap_record_inner 2) /\
  decoded_keys latin1_decimal (fst (extract_books latin1_isdigit latin1_decimal (overlap_lines "2")))
    = [Some 1].
Proof. split; vm_compute; reflexivity. Qed.

Lemma books_duplicate_last_wins_witness :
  scan latin1_isdigit latin1_decimal 0 duplicate_lines =
    [] ++ EStore 0 7 duplicate_record_a :: [] ++ EStore 6 7 duplicate_record_b :: [] /\
  dict_get 7 (fst (extract_books latin1_isdigit latin1_decimal duplicate_lines)) =
    Some duplicate_record_b.
Proof.
  assert (Hs : scan latin1_isdigit latin1_decimal 0 duplicate_lines =
    [] ++ EStore 0 7 duplicate_record_a :: [] ++ EStore 6 7 duplicate_record_b :: [])
    by (vm_compute; reflexivity).
  split; [exact Hs|].
  exact (proj1 (books_duplicate_last_wins latin1_isdigit latin1_decimal duplicate_lines
                  [] 0%nat 7 duplicate_record_a [] 6%nat duplicate_record_b [] Hs (fun H => H))).
Defined.

(** C9 fails: [overlap_lines "1"] has well-formed blocks with number 1 at
    lines 0 and 2; the dict holds the record of the earlier one. *)
Lemma books_duplicate_last_wins_counterexample :
  block_at latin1_isdigit latin1_decimal (overlap_lines "1")
    = Some (1, overlap_record_outer "1") /\
  block_at latin1_isdigit latin1_decimal (skipn 2 (overlap_lines "1"))
    = Some (1, overlap_record_inner 1) /\
  dict_get 1 (fst (extract_books latin1_isdigit latin1_decimal (overlap_lines "1")))
    = Some (overlap_record_outer "1") /\
  overlap_record_outer "1" <> overlap_record_inner 1.
Proof.
  split; [vm_compute; reflexivity|split; [vm_compute; reflexivity|split; [vm_compute; reflexivity|]]].
  intros H. vm_compute in H. discriminate H.
Qed.

(** ** Further properties of extract_books *)

(** *** [str.strip()] *)

Lemma lstrip_suffix (s : pystr) : exists p, s = p ++ lstrip s.
Proof.
  induction s as [|c s [p Hp]]; cbn [lstrip]; [exists []; reflexivity|].
  destruct (is_space_cp c); [exists (c :: p); cbn; congruence|exists []; reflexivity].
Qed.

Lemma lstrip_head (s : pystr) :
  match lstrip s with [] => True | c :: _ => is_space_cp c = false end.
Proof.
  induction s as [|c s IH]; cbn [lstrip]; [exact I|].
  destruct (is_space_cp c) eqn:E; [exact IH|exact E].
Qed.

Lemma lstrip_fix (s : pystr) :
  match s with [] => True | c :: _ => is_space_cp c = false end -> lstrip s = s.
Proof. destruct s as [|c s]; cbn [lstrip]; [reflexivity|]. intros H. rewrite H. reflexivity. Qed.

Lemma strip_idem (s : pystr) : strip (strip s) = strip s.
Proof.
  unfold strip.
  set (u := lstrip (rev (lstrip s))).
  assert (Hu : lstrip u = u) by (apply lstrip_fix, lstrip_head).
  assert (Ht : lstrip (rev u) = rev u).
  { apply lstrip_fix. destruct (lstrip_suffix (rev (lstrip s))) as [p Hp]. fold u in Hp.
    apply (f_equal (@rev Z)) in Hp. rewrite rev_involutive, rev_app_distr in Hp.
    pose proof (lstrip_head s) as Hh. rewrite Hp in Hh. revert Hh.
    destruct (rev u) as [|c t]; cbn; auto. }
  rewrite Ht, rev_involutive, Hu. reflexivity.
Qed.

(** *** The books dict: values and key order *)

Lemma dict_set_in {V} (k : Z) (v : V) (d : list (Z * V)) k' v' :
  In (k', v') (dict_set k v d) -> (k', v') = (k, v) \/ In (k', v') d.
Proof.
  induction d as [|[k0 v0] d IH]; cbn [dict_set In]; intros H.
  - destruct H as [H|[]]. left; symmetry; exact H.
  - destruct (k0 =? k); cbn [In] in H; destruct H as [H|H].
    + left; symmetry; exact H.
    + right; right; exact H.
    + right; left; exact H.
    + apply IH in H as [H|H]; [left; exact H|right; right; exact H].
Qed.

Lemma fold_events_in (evs : list event) :
  forall d k r, In (k, r) (fold_left apply_event evs d) ->
  In (k, r) d \/ exists i, In (EStore i k r) evs.
Proof.
  induction evs as [|e evs IH]; intros d k r H; cbn [fold_left] in H; [left; exact H|].
  apply IH in H as [H|(i & H)]; [|right; exists i; right; exact H].
  destruct e as [i k' r'|i]; cbn [apply_event] in H; [|left; exact H].
  apply dict_set_in in H as [H|H]; [|left; exact H].
  inversion H; subst. right. exists i. left. reflexivity.
Qed.

Lemma books_of_in (evs : list event) k r :
  In (k, r) (books_of evs) -> exists i, In (EStore i k r) evs.
Proof. unfold books_of. intros H. apply fold_events_in in H as [[]|H]. exact H. Qed.

Lemma dict_set_keys_order {V} (k : Z) (v : V) (d : list (Z * V)) :
  map fst (dict_set k v d) =
  if in_dec Z.eq_dec k (map fst d) then map fst d else map fst d ++ [k].
Proof.
  induction d as [|[k0 v0] d IH]; cbn [dict_set map fst]; [reflexivity|].
  destruct (k0 =? k) eqn:E.
  - apply Z.eqb_eq in E. subst. cbn [map fst].
    destruct (in_dec Z.eq_dec k (k :: map fst d)) as [_|H]; [reflexivity|].
    exfalso. apply H. left. reflexivity.
  - apply Z.eqb_neq in E. cbn [map fst]. rewrite IH.
    destruct (in_dec Z.eq_dec k (map fst d)) as [H|H];
      destruct (in_dec Z.eq_dec k (k0 :: map fst d)) as [H'|H']; try reflexivity.
    + exfalso. apply H'. right. exact H.
    + destruct H' as [H'|H']; [congruence|contradiction].
Qed.

(** Keys of a dict filled by assignments, in first-assignment order: the
    distinct assigned keys, each at its first occurrence. *)
Lemma nodup_rev_snoc {A} (dec : forall x y : A, {x = y} + {x <> y}) (l : list A) (k : A) :
  rev (nodup dec (rev (l ++ [k]))) =
  if in_dec dec k (rev (nodup dec (rev l)))
  then rev (nodup dec (rev l)) else rev (nodup dec (rev l)) ++ [k].
Proof.
  rewrite rev_app_distr. cbn [rev app nodup].
  destruct (in_dec dec k (rev l)) as [H|H];
    destruct (in_dec dec k (rev (nodup dec (rev l)))) as [H'|H']; try reflexivity.
  - exfalso. apply H'. rewrite <- in_rev. apply nodup_In. exact H.
  - exfalso. apply H. rewrite <- in_rev in H'. apply nodup_In in H'. exact H'.
Qed.

Lemma latin1_decimal_ascii : forall c, 48 <= c <= 57 -> latin1_decimal c = Some (c - 48).
Proof.
  intros c Hc. unfold latin1_decimal.
  replace ((48 <=? c) && (c <=? 57)) with true; [reflexivity|].
  symmetry. apply andb_true_iff. split; apply Z.leb_le; lia.
Qed.

Lemma py_str_inj (a b : Z) : py_str a = py_str b -> a = b.
Proof.
  intros H. apply (f_equal (py_int latin1_decimal)) in H.
  rewrite !(py_int_py_str latin1_decimal latin1_decimal_ascii) in H. congruence.
Qed.

Lemma NoDup_map_inj {A B} (f : A -> B) (l : list A) :
  (forall x y, f x = f y -> x = y) -> NoDup l -> NoDup (map f l).
Proof.
  intros Hf. induction 1 as [|x l Hx Hl IH]; cbn [map]; constructor; [|exact IH].
  intros Hin. apply in_map_iff in Hin as [y [Ey Hy]]. apply Hf in Ey. subst. contradiction.
Qed.

Lemma SS_lt_NoDup (l : list Z) : StronglySorted Z.lt l -> NoDup l.
Proof.
  induction 1 as [|x l _ IH Hall]; constructor; [|exact IH].
  rewrite Forall_forall in Hall. intros Hx. specialize (Hall x Hx). lia.
Qed.

Section BookExtras.

Variable isdigit_cp : Z -> bool.
Variable decimal_cp : Z -> option Z.

(** *** One iteration of the scan loop *)

Lemma scan_cons_shape (i : nat) (l : pystr) (rest : list pystr) :
  scan isdigit_cp decimal_cp i (l :: rest) = [] \/
  scan isdigit_cp decimal_cp i (l :: rest) = scan isdigit_cp decimal_cp (S i) rest \/
  ((5 <= length rest)%nat /\
   scan isdigit_cp decimal_cp i (l :: rest) = EError i :: scan isdigit_cp decimal_cp (S i) rest) \/
  exists k r, (5 <= length rest)%nat /\
   scan isdigit_cp decimal_cp i (l :: rest) =
     EStore i k r :: scan isdigit_cp decimal_cp (i + 6) (skipn 5 rest).
Proof.
  cbn [scan]. destruct (is_color (strip l)); [|right; left; reflexivity].
  destruct rest as [|n [|a [|b [|c [|d rest']]]]]; try (left; reflexivity).
  destruct (py_isdigit isdigit_cp (strip n)); [|right; left; reflexivity].
  destruct (py_int decimal_cp (strip n)) as [k|].
  - do 3 right. eexists; eexists. split; [cbn; lia|reflexivity].
  - right; right; left. split; [cbn; lia|reflexivity].
Qed.

Lemma block_at_record (ls : list pystr) k r :
  block_at isdigit_cp decimal_cp ls = Some (k, r) ->
  book_number r = k /\ is_color (color r) = true /\
  exists l n a b c d rest, ls = l :: n :: a :: b :: c :: d :: rest /\
    py_isdigit isdigit_cp (strip n) = true /\ py_int decimal_cp (strip n) = Some k /\
    color r = strip l /\ short_ru r = strip a /\ long_ru r = strip b /\
    short_en r = strip c /\ long_en r = strip d.
Proof.
  destruct ls as [|l [|n [|a [|b [|c [|d rest]]]]]]; cbn [block_at]; try discriminate.
  destruct (is_color (strip l)) eqn:Ec, (py_isdigit isdigit_cp (strip n)) eqn:Ed;
    cbn [andb]; try discriminate.
  destruct (py_int decimal_cp (strip n)) eqn:Ei; intros H; inversion H; subst.
  cbn. split; [reflexivity|split; [exact Ec|]].
  exists l, n, a, b, c, d, rest. repeat split; assumption.
Qed.

Lemma books_in_block (lines : list pystr) k r :
  In (k, r) (fst (extract_books isdigit_cp decimal_cp lines)) ->
  exists i, block_at isdigit_cp decimal_cp (skipn i lines) = Some (k, r).
Proof.
  unfold extract_books. cbn [fst]. intros H. apply books_of_in in H as [i H].
  apply (scan_stores_are_blocks isdigit_cp decimal_cp (length lines)) in H as [_ H]; [|lia].
  rewrite Nat.sub_0_r in H. exists i. exact H.
Qed.

(** *** Positions of the events *)

Lemma scan_index_bounds (fuel : nat) :
  forall ls i, (length ls <= fuel)%nat ->
  Forall (fun e => (i <= event_index e /\ event_index e + 6 <= i + length ls)%nat)
         (scan isdigit_cp decimal_cp i ls).
Proof.
  induction fuel as [|fuel IH]; intros ls i Hlen.
  - destruct ls; [constructor|cbn in Hlen; lia].
  - destruct ls as [|l rest]; [constructor|]. cbn [length] in Hlen |- *.
    destruct (scan_cons_shape i l rest) as [E|[E|[[H5 E]|(k & r & H5 & E)]]]; rewrite E.
    + constructor.
    + eapply Forall_impl; [|apply IH; lia]. cbn. intros e He. lia.
    + constructor; [cbn; lia|].
      eapply Forall_impl; [|apply IH; lia]. cbn. intros e He. lia.
    + constructor; [cbn; lia|].
      eapply Forall_impl; [|apply IH; rewrite length_skipn; lia].
      intros e He. cbv beta in He |- *. rewrite length_skipn in He. lia.
Qed.

Lemma scan_sorted (fuel : nat) :
  forall ls i, (length ls <= fuel)%nat ->
  StronglySorted (fun e1 e2 => (event_index e1 < event_index e2)%nat)
                 (scan isdigit_cp decimal_cp i ls).
Proof.
  induction fuel as [|fuel IH]; intros ls i Hlen.
  - destruct ls; [constructor|cbn in Hlen; lia].
  - destruct ls as [|l rest]; [constructor|]. cbn [length] in Hlen.
    destruct (scan_cons_shape i l rest) as [E|[E|[[H5 E]|(k & r & H5 & E)]]]; rewrite E.
    + constructor.
    + apply IH. lia.
    + constructor; [apply IH; lia|].
      eapply Forall_impl; [|apply (scan_index_bounds (length rest)); lia].
      cbn. intros e He. lia.
    + constructor; [apply IH; rewrite length_skipn; lia|].
      eapply Forall_impl; [|apply (scan_index_bounds (length (skipn 5 rest))); lia].
      intros e He. cbv beta in He |- *. cbn [event_index]. lia.
Qed.

Lemma scan_store_gap (fuel : nat) :
  forall ls i pre j k r post, (length ls <= fuel)%nat ->
  scan isdigit_cp decimal_cp i ls = pre ++ EStore j k r :: post ->
  Forall (fun e => (j + 6 <= event_index e)%nat) post.
Proof.
  induction fuel as [|fuel IH]; intros ls i pre j k r post Hlen Hs.
  - destruct ls; [destruct pre; discriminate|cbn in Hlen; lia].
  - destruct ls as [|l rest]; [destruct pre; discriminate|]. cbn [length] in Hlen.
    destruct (scan_cons_shape i l rest) as [E|[E|[[H5 E]|(k' & r' & H5 & E)]]];
      rewrite E in Hs.
    + destruct pre; discriminate.
    + eapply IH; [|exact Hs]. lia.
    + destruct pre as [|e pre]; cbn [app] in Hs; inversion Hs; subst.
      eapply IH; [|eassumption]. lia.
    + assert (Hl5 : length (skipn 5 rest) = (length rest - 5)%nat) by apply length_skipn.
      remember (skipn 5 rest) as rest5 eqn:Hr5. clear Hr5.
      destruct pre as [|e pre]; cbn [app] in Hs; inversion Hs; subst.
      * eapply Forall_impl; [|exact (scan_index_bounds _ _ _ (le_n _))].
        intros e He. cbv beta in He |- *. lia.
      * eapply IH; [|eassumption]. lia.
Qed.

Lemma scan_store_count (fuel : nat) :
  forall ls i, (length ls <= fuel)%nat ->
  (6 * length (stored_keys (scan isdigit_cp decimal_cp i ls)) <= length ls)%nat.
Proof.
  induction fuel as [|fuel IH]; intros ls i Hlen.
  - destruct ls; [cbn; lia|cbn in Hlen; lia].
  - destruct ls as [|l rest]; [cbn; lia|]. cbn [length] in Hlen |- *.
    destruct (scan_cons_shape i l rest) as [E|[E|[[H5 E]|(k & r & H5 & E)]]]; rewrite E.
    + cbn. lia.
    + specialize (IH rest (S i)). lia.
    + cbn [stored_keys flat_map app]. fold (stored_keys (scan isdigit_cp decimal_cp (S i) rest)).
      specialize (IH rest (S i)). lia.
    + cbn [stored_keys flat_map app]. fold (stored_keys (scan isdigit_cp decimal_cp (i + 6) (skipn 5 rest))).
      cbn [length]. specialize (IH (skipn 5 rest) (i + 6)%nat).
      rewrite length_skipn in IH. lia.
Qed.

Lemma scan_errors_are_blocks (fuel : nat) :
  forall ls i j, (length ls <= fuel)%nat ->
  In (EError j) (scan isdigit_cp decimal_cp i ls) ->
  (i <= j)%nat /\ exists l n a b c d rest, skipn (j - i) ls = l :: n :: a :: b :: c :: d :: rest /\
    is_color (strip l) = true /\ py_isdigit isdigit_cp (strip n) = true /\
    py_int decimal_cp (strip n) = None.
Proof.
  induction fuel as [|fuel IH]; intros ls i j Hlen Hin.
  - destruct ls; [destruct Hin|cbn in Hlen; lia].
  - destruct ls as [|l rest]; [destruct Hin|]. cbn [length] in Hlen.
    cbn [scan] in Hin. destruct (is_color (strip l)) eqn:Ec.
    + destruct rest as [|n [|a [|b [|c [|d rest']]]]]; try destruct Hin.
      cbn [length] in Hlen.
      destruct (py_isdigit isdigit_cp (strip n)) eqn:Ed.
      * destruct (py_int decimal_cp (strip n)) eqn:Ei.
        -- destruct Hin as [Hin|Hin]; [discriminate|].
           apply IH in Hin as [Hij Hb]; [|lia].
           split; [lia|]. replace (j - i)%nat with (6 + (j - (i + 6)))%nat by lia.
           exact Hb.
        -- destruct Hin as [Hin|Hin].
           ++ inversion Hin; subst. rewrite Nat.sub_diag. split; [lia|].
              exists l, n, a, b, c, d, rest'. repeat split; assumption.
           ++ apply IH in Hin as [Hij Hb]; [|cbn [length]; lia].
              split; [lia|]. replace (j - i)%nat with (S (j - S i)) by lia. exact Hb.
      * apply IH in Hin as [Hij Hb]; [|cbn [length]; lia].
        split; [lia|]. replace (j - i)%nat with (S (j - S i)) by lia. exact Hb.
    + apply IH in Hin as [Hij Hb]; [|lia].
      split; [lia|]. replace (j - i)%nat with (S (j - S i)) by lia. exact Hb.
Qed.

Lemma scan_no_color (ls : list pystr) :
  forall i, Forall (fun l => is_color (strip l) = false) ls ->
  scan isdigit_cp decimal_cp i ls = [].
Proof.
  induction ls as [|l rest IH]; intros i Hf; [reflexivity|].
  apply Forall_cons_iff in Hf as [Hl Hf]. cbn [scan]. rewrite Hl. apply IH, Hf.
Qed.

Lemma digits_value_nonneg (Hdec : forall c v, decimal_cp c = Some v -> 0 <= v) (s : pystr) :
  forall acc v, 0 <= acc -> digits_value decimal_cp acc s = Some v -> 0 <= v.
Proof.
  induction s as [|c s IH]; intros acc v Hacc H; cbn [digits_value] in H.
  - inversion H; subst. exact Hacc.
  - destruct (decimal_cp c) as [w|] eqn:Ew; [|discriminate].
    apply Hdec in Ew. eapply IH; [|exact H]. lia.
Qed.

End BookExtras.

Lemma errors_of_positions (evs : list event) :
  errors_of evs = map PError (error_positions evs).
Proof.
  induction evs as [|e evs IH]; [reflexivity|].
  destruct e; cbn [errors_of error_positions flat_map app map];
    fold (errors_of evs) (error_positions evs); rewrite IH; reflexivity.
Qed.

Lemma in_error_positions (evs : list event) j :
  In j (error_positions evs) <-> In (EError j) evs.
Proof.
  induction evs as [|e evs IH]; cbn [error_positions flat_map In]; [tauto|].
  fold (error_positions evs). destruct e; cbn [app In]; rewrite IH.
  - split; [intros H; right; exact H|intros [H|H]; [discriminate|exact H]].
  - split; (intros [H|H]; [left; congruence|right; exact H]).
Qed.

Lemma error_positions_sorted (evs : list event) :
  StronglySorted (fun e1 e2 => (event_index e1 < event_index e2)%nat) evs ->
  StronglySorted lt (error_positions evs).
Proof.
  induction evs as [|e evs IH]; intros Hs; [constructor|].
  apply StronglySorted_inv in Hs as [Hs Hall]. rewrite Forall_forall in Hall.
  destruct e as [i k r|i]; cbn [error_positions flat_map app]; fold (error_positions evs);
    [apply IH, Hs|].
  constructor; [apply IH, Hs|]. apply Forall_forall. intros j Hj.
  apply in_error_positions in Hj. exact (Hall _ Hj).
Qed.

Lemma books_of_keys_order (evs : list event) :
  map fst (books_of evs) = rev (nodup Z.eq_dec (rev (stored_keys evs))).
Proof.
  induction evs as [|e evs IH] using rev_ind; [reflexivity|].
  unfold books_of in *. rewrite fold_left_app. cbn [fold_left].
  unfold stored_keys. rewrite flat_map_app. fold (stored_keys evs).
  destruct e as [i k r|i]; cbn [flat_map app apply_event].
  - rewrite dict_set_keys_order, IH, nodup_rev_snoc. reflexivity.
  - rewrite app_nil_r. exact IH.
Qed.

Lemma py_int_digit_nonneg (isdigit_cp : Z -> bool) (decimal_cp : Z -> option Z)
  (Hdec : forall c v, decimal_cp c = Some v -> 0 <= v) (Hminus : isdigit_cp 45 = false)
  (s : pystr) k :
  py_isdigit isdigit_cp s = true -> py_int decimal_cp s = Some k -> 0 <= k.
Proof.
  destruct s as [|c ds]; [discriminate|]. cbn [py_isdigit forallb].
  intros Hd. apply andb_true_iff in Hd as [Hc _]. unfold py_int.
  destruct (c =? 45) eqn:E45; [apply Z.eqb_eq in E45; subst; congruence|].
  destruct (c =? 43).
  - destruct ds; [discriminate|]. apply digits_value_nonneg; [exact Hdec|lia].
  - apply digits_value_nonneg; [exact Hdec|lia].
Qed.

Section BookExtraTheorems.

Variable isdigit_cp : Z -> bool.
Variable decimal_cp : Z -> option Z.

(** X1: when no line strips to a colour line, [extract_books] returns an
    empty dict and prints only the count, 0. *)
Theorem extract_books_no_color_line (lines : list pystr) :
  Forall (fun l => is_color (strip l) = false) lines ->
  extract_books isdigit_cp decimal_cp lines = ([], [PCount 0]).
Proof.
  intros H. unfold extract_books.
  rewrite (scan_no_color isdigit_cp decimal_cp lines 0 H). reflexivity.
Qed.

(** X2: every value of the returned dict is the record of a well-formed
    block of the input; its [book_number] field equals its key and its
    [color] field matches the colour pattern. *)
Theorem books_records_match_keys (lines : list pystr) :
  Forall (fun kv => book_number (snd kv) = fst kv /\ is_color (color (snd kv)) = true /\
                    exists i, block_at isdigit_cp decimal_cp (skipn i lines) = Some kv)
         (fst (extract_books isdigit_cp decimal_cp lines)).
Proof.
  apply Forall_forall. intros [k r] Hin.
  destruct (books_in_block isdigit_cp decimal_cp lines k r Hin) as [i Hb].
  destruct (block_at_record isdigit_cp decimal_cp _ k r Hb) as [Hk [Hc _]].
  cbn [fst snd]. split; [exact Hk|split; [exact Hc|exists i; exact Hb]].
Qed.

(** X3: the string fields of every stored record are stripped: none of
    them starts or ends with a whitespace character. *)
Theorem books_fields_stripped (lines : list pystr) :
  Forall (fun kv => strip (color (snd kv)) = color (snd kv) /\
                    strip (short_ru (snd kv)) = short_ru (snd kv) /\
                    strip (long_ru (snd kv)) = long_ru (snd kv) /\
                    strip (short_en (snd kv)) = short_en (snd kv) /\
                    strip (long_en (snd kv)) = long_en (snd kv))
         (fst (extract_books isdigit_cp decimal_cp lines)).
Proof.
  apply Forall_forall. intros [k r] Hin.
  destruct (books_in_block isdigit_cp decimal_cp lines k r Hin) as [i Hb].
  destruct (block_at_record isdigit_cp decimal_cp _ k r Hb)
    as (_ & _ & l & n & a & b & c & d & rest & _ & _ & _ & Hc & Ha & Hb' & Hc' & Hd).
  cbn [snd]. rewrite Hc, Ha, Hb', Hc', Hd, !strip_idem. repeat split.
Qed.

(** X4: when [int()] gives digits the values 0..9 and ['-'] is not a
    digit (both hold for Python's tables), every key of the dict is
    non-negative. *)
Theorem books_keys_nonnegative
  (Hdec : forall c v, decimal_cp c = Some v -> 0 <= v) (Hminus : isdigit_cp 45 = false)
  (lines : list pystr) :
  Forall (fun kv => 0 <= fst kv) (fst (extract_books isdigit_cp decimal_cp lines)).
Proof.
  apply Forall_forall. intros [k r] Hin.
  destruct (books_in_block isdigit_cp decimal_cp lines k r Hin) as [i Hb].
  destruct (block_at_record isdigit_cp decimal_cp _ k r Hb)
    as (_ & _ & l & n & a & b & c & d & rest & _ & Hd & Hi & _).
  exact (py_int_digit_nonneg isdigit_cp decimal_cp Hdec Hminus _ k Hd Hi).
Qed.

(** X5: the scan moves forward only: the line indices of its events
    strictly increase, and each event sits at a line followed by at least
    five more lines. *)
Theorem scan_events_ordered (lines : list pystr) :
  StronglySorted (fun e1 e2 => (event_index e1 < event_index e2)%nat)
                 (scan isdigit_cp decimal_cp 0 lines) /\
  Forall (fun e => (event_index e + 6 <= length lines)%nat) (scan isdigit_cp decimal_cp 0 lines).
Proof.
  split; [apply (scan_sorted isdigit_cp decimal_cp (length lines)); lia|].
  eapply Forall_impl; [|apply (scan_index_bounds isdigit_cp decimal_cp (length lines)); lia].
  intros e He. cbv beta in He |- *. lia.
Qed.

(** X6: the six lines of a stored block are not looked at again: every
    later event is at least six lines further. *)
Theorem scan_stores_disjoint (lines : list pystr) pre j k r post :
  scan isdigit_cp decimal_cp 0 lines = pre ++ EStore j k r :: post ->
  Forall (fun e => (j + 6 <= event_index e)%nat) post.
Proof.
  intros Hs. exact (scan_store_gap isdigit_cp decimal_cp (length lines) lines 0 pre j k r post
                      (le_n _) Hs).
Qed.

(** X7: the dict has at most one entry per six input lines; so has the
    count printed. *)
Theorem books_count_bound (lines : list pystr) :
  (6 * length (fst (extract_books isdigit_cp decimal_cp lines)) <= length lines)%nat.
Proof.
  unfold extract_books. cbn [fst]. rewrite books_of_length.
  set (l := stored_keys (scan isdigit_cp decimal_cp 0 lines)).
  assert (H : (length (nodup Z.eq_dec l) <= length l)%nat).
  { apply NoDup_incl_length; [apply NoDup_nodup|]. intros x Hx. apply nodup_In in Hx. exact Hx. }
  pose proof (scan_store_count isdigit_cp decimal_cp (length lines) lines 0 (le_n _)). unfold l in *. lia.
Qed.

(** X8: the printed output is the error lines, in increasing line order,
    followed by the count.  Each error line index is a colour line followed
    by a line that passes [isdigit()] but that [int()] rejects, with at
    least four more lines after it. *)
Theorem extract_books_printed (lines : list pystr) :
  exists js,
    snd (extract_books isdigit_cp decimal_cp lines) =
      map PError js ++ [PCount (length (fst (extract_books isdigit_cp decimal_cp lines)))] /\
    StronglySorted lt js /\
    Forall (fun j => exists l n a b c d rest,
              skipn j lines = l :: n :: a :: b :: c :: d :: rest /\
              is_color (strip l) = true /\ py_isdigit isdigit_cp (strip n) = true /\
              py_int decimal_cp (strip n) = None) js.
Proof.
  exists (error_positions (scan isdigit_cp decimal_cp 0 lines)).
  split; [unfold extract_books; cbn [snd fst]; rewrite errors_of_positions; reflexivity|split].
  - apply error_positions_sorted, (scan_sorted isdigit_cp decimal_cp (length lines)). lia.
  - apply Forall_forall. intros j Hj. apply in_error_positions in Hj.
    apply (scan_errors_are_blocks isdigit_cp decimal_cp (length lines)) in Hj as [_ Hb]; [|lia].
    rewrite Nat.sub_0_r in Hb. exact Hb.
Qed.

(** X9: books.json never repeats a key: the strings [str(k)] written for
    the keys are pairwise distinct. *)
Theorem books_json_keys_distinct (lines : list pystr) :
  NoDup (json_keys (fst (extract_books isdigit_cp decimal_cp lines))).
Proof.
  unfold json_keys. rewrite <- (map_map fst py_str).
  apply NoDup_map_inj; [exact py_str_inj|]. apply books_of_nodup.
Qed.

(** X10: the keys of the dict, hence of books.json, come in the order in
    which each book number was first stored. *)
Theorem books_keys_first_store_order (lines : list pystr) :
  map fst (fst (extract_books isdigit_cp decimal_cp lines)) =
  rev (nodup Z.eq_dec (rev (stored_keys (scan isdigit_cp decimal_cp 0 lines)))).
Proof. unfold extract_books. cbn [fst]. apply books_of_keys_order. Qed.

End BookExtraTheorems.

(** ** Further properties of extract_plan *)

Module PlanExtras.
Import Plan PlanFacts.

Lemma runs_from_nonempty (rows : list row) :
  forall d g, g <> [] -> forall h, In h (runs_of (runs_from d g rows)) -> snd h <> [].
Proof.
  induction rows as [|r rest IH]; intros d g Hg h Hh; cbn [runs_from] in Hh.
  - unfold runs_of in Hh; cbn in Hh. destruct Hh as [<-|[]]. exact Hg.
  - destruct (day r =? d).
    + refine (IH d (g ++ [r]) _ h Hh). destruct g; discriminate.
    + specialize (IH (day r) [r]). unfold runs_of in *.
      destruct (runs_from (day r) [r] rest) as [cl op]. cbn in Hh.
      destruct Hh as [<-|Hh]; [exact Hg|]. apply IH; [discriminate|exact Hh].
Qed.

Lemma runs_nonempty (rows : list row) : forall h, In h (runs rows) -> snd h <> [].
Proof.
  destruct rows as [|r rest]; [intros _ []|]. unfold runs.
  pose proof (runs_from_nonempty rest (day r) [r]) as H. unfold runs_of in H.
  destruct (runs_from (day r) [r] rest). apply H. discriminate.
Qed.

Lemma in_runs_rows (rows : list row) h x : In h (runs rows) -> In x (snd h) -> In x rows.
Proof.
  intros Hh Hx. rewrite <- (runs_concat rows). apply in_concat.
  exists (snd h). split; [apply in_map, Hh|exact Hx].
Qed.

Lemma runs_day_in_rows (rows : list row) h :
  In h (runs rows) -> exists x, In x rows /\ day x = fst h.
Proof.
  intros Hh. destruct (snd h) as [|x t] eqn:E; [exfalso; exact (runs_nonempty rows h Hh E)|].
  exists x. split.
  - apply (in_runs_rows rows h); [exact Hh|rewrite E; left; reflexivity].
  - apply (runs_homogeneous rows h Hh). rewrite E. left. reflexivity.
Qed.

Lemma row_in_runs (rows : list row) x :
  In x rows -> exists h, In h (runs rows) /\ fst h = day x.
Proof.
  intros Hx. rewrite <- (runs_concat rows) in Hx. apply in_concat in Hx as [g [Hg Hx]].
  apply in_map_iff in Hg as [h [<- Hh]]. exists h. split; [exact Hh|].
  symmetry. exact (runs_homogeneous rows h Hh x Hx).
Qed.

Lemma flushed_no_sentinel (rs : list (Z * list row)) :
  (forall h, In h rs -> fst h <> -1) -> flushed rs = rs.
Proof.
  destruct rs as [|g t] using rev_ind; [reflexivity|]. intros H.
  rewrite flushed_snoc, filter_all; [reflexivity|].
  intros h Hh. unfold not_sentinel. apply negb_true_iff, Z.eqb_neq, H, in_or_app. left; exact Hh.
Qed.

Lemma extract_plan_no_sentinel (rows : list row) :
  Forall (fun r => day r <> -1) rows -> extract_plan rows = map plan_of_run (runs rows).
Proof.
  intros Hf. rewrite extract_plan_runs, flushed_no_sentinel; [reflexivity|].
  intros h Hh. destruct (runs_day_in_rows rows h Hh) as [x [Hx <-]].
  rewrite Forall_forall in Hf. apply Hf, Hx.
Qed.

(** X11: every [DayPlan] comes from a non-empty block of consecutive
    input rows that all have its day; its readings are the items of these
    rows, in input order.  No [DayPlan] has an empty reading list. *)
Theorem extract_plan_segments (rows : list row) :
  Forall (fun dp => exists pre g post, rows = pre ++ g ++ post /\ g <> [] /\
                      Forall (fun x => day x = dp_day dp) g /\ readings dp = map mk_item g)
         (extract_plan rows).
Proof.
  apply Forall_forall. intros dp Hdp. destruct (in_extract_plan _ _ Hdp) as [h [Hh ->]].
  destruct (in_split h (runs rows)) as (rs1 & rs2 & E).
  { exact Hh. }
  exists (concat (map snd rs1)), (snd h), (concat (map snd rs2)). split; [|split; [|split]].
  - rewrite <- (runs_concat rows) at 1. rewrite E, map_app, concat_app. reflexivity.
  - exact (runs_nonempty rows h Hh).
  - apply Forall_forall. apply (runs_homogeneous rows h Hh).
  - reflexivity.
Qed.

(** X12: when no row has day -1, no row is lost: the readings of the plan,
    concatenated, are the items of all the rows in input order (whatever
    the order of the rows). *)
Theorem extract_plan_keeps_rows (rows : list row) :
  Forall (fun r => day r <> -1) rows ->
  concat (map readings (extract_plan rows)) = map mk_item rows.
Proof.
  intros Hf. rewrite extract_plan_no_sentinel by exact Hf.
  rewrite <- (runs_concat rows) at 2. rewrite concat_map, !map_map. reflexivity.
Qed.

(** X13: for rows sorted by day then item with no day -1, the plan has one
    [DayPlan] per distinct day of the input and no other. *)
Theorem extract_plan_one_per_day (rows : list row) :
  Sorted row_le rows -> Forall (fun r => day r <> -1) rows ->
  NoDup (map dp_day (extract_plan rows)) /\
  (forall d, In d (map dp_day (extract_plan rows)) <-> exists r, In r rows /\ day r = d) /\
  length (extract_plan rows) = length (nodup Z.eq_dec (map day rows)).
Proof.
  intros Hs Hf. rewrite extract_plan_no_sentinel by exact Hf.
  assert (Ed : map dp_day (map plan_of_run (runs rows)) = map fst (runs rows))
    by (rewrite map_map; reflexivity).
  rewrite Ed.
  assert (Hnd : NoDup (map fst (runs rows))).
  { apply SS_lt_NoDup. apply SS_map with (R := day_lt); [intros x y H; exact H|].
    apply runs_sorted, Hs. }
  assert (Hin : forall d, In d (map fst (runs rows)) <-> exists r, In r rows /\ day r = d).
  { intros d. split.
    - intros H. apply in_map_iff in H as [h [<- Hh]]. apply runs_day_in_rows, Hh.
    - intros [x [Hx <-]]. destruct (row_in_runs rows x Hx) as [h [Hh Ehd]].
      rewrite <- Ehd. apply in_map, Hh. }
  split; [exact Hnd|split; [exact Hin|]].
  rewrite length_map, <- (length_map fst (runs rows)).
  apply Nat.le_antisymm; apply NoDup_incl_length.
  - exact Hnd.
  - intros d Hd. apply nodup_In. apply Hin in Hd as [x [Hx <-]]. apply in_map, Hx.
  - apply NoDup_nodup.
  - intros d Hd. apply nodup_In, in_map_iff in Hd as [x [<- Hx]]. apply Hin. exists x. auto.
Qed.

(** *** The [info] dict *)

Lemma info_set_keys_order {V} (k : pystr) (v : V) (d : list (pystr * V)) :
  map fst (info_set k v d) =
  if in_dec (list_eq_dec Z.eq_dec) k (map fst d) then map fst d else map fst d ++ [k].
Proof.
  induction d as [|[k0 v0] d IH]; cbn [info_set map fst]; [reflexivity|].
  destruct (list_eq_dec Z.eq_dec k0 k) as [E|E].
  - subst. cbn [map fst].
    destruct (in_dec (list_eq_dec Z.eq_dec) k (k :: map fst d)) as [_|H]; [reflexivity|].
    exfalso. apply H. left. reflexivity.
  - cbn [map fst]. rewrite IH.
    destruct (in_dec (list_eq_dec Z.eq_dec) k (map fst d)) as [H|H];
      destruct (in_dec (list_eq_dec Z.eq_dec) k (k0 :: map fst d)) as [H'|H']; try reflexivity.
    + exfalso. apply H'. right. exact H.
    + destruct H' as [H'|H']; [congruence|contradiction].
Qed.

Lemma info_get_set_eq {V} (k : pystr) (v : V) (d : list (pystr * V)) :
  info_get k (info_set k v d) = Some v.
Proof.
  induction d as [|[k0 v0] d IH]; cbn [info_set info_get].
  - destruct (list_eq_dec Z.eq_dec k k); [reflexivity|congruence].
  - destruct (list_eq_dec Z.eq_dec k0 k); cbn [info_get].
    + destruct (list_eq_dec Z.eq_dec k k); [reflexivity|congruence].
    + destruct (list_eq_dec Z.eq_dec k0 k); [contradiction|exact IH].
Qed.

Lemma info_get_set_neq {V} (k k' : pystr) (v : V) (d : list (pystr * V)) :
  k' <> k -> info_get k' (info_set k v d) = info_get k' d.
Proof.
  intros Hne. induction d as [|[k0 v0] d IH]; cbn [info_set info_get].
  - destruct (list_eq_dec Z.eq_dec k k'); [congruence|reflexivity].
  - destruct (list_eq_dec Z.eq_dec k0 k) as [E|E]; cbn [info_get].
    + subst k0. destruct (list_eq_dec Z.eq_dec k k'); [congruence|reflexivity].
    + destruct (list_eq_dec Z.eq_dec k0 k'); [reflexivity|exact IH].
Qed.

Lemma info_get_keys {V} (k : pystr) (d : list (pystr * V)) :
  info_get k d = None <-> ~ In k (map fst d).
Proof.
  induction d as [|[k0 v0] d IH]; cbn [info_get map fst In]; [tauto|].
  destruct (list_eq_dec Z.eq_dec k0 k) as [E|E].
  - split; [discriminate|]. intros H. exfalso. apply H. left. exact E.
  - rewrite IH. split; [intros H [H'|H']; [contradiction|exact (H H')]|tauto].
Qed.

Lemma fold_info_other {V} (k : pystr) (rows : list (pystr * V)) :
  forall d, ~ In k (map fst rows) ->
  info_get k (fold_left info_step rows d) = info_get k d.
Proof.
  induction rows as [|[k' v'] rows IH]; intros d Hk; [reflexivity|].
  cbn [fold_left map fst In] in *. rewrite IH by tauto.
  unfold info_step. cbn [fst snd]. apply info_get_set_neq. intros ->. tauto.
Qed.

(** X14: in the [info] dict, a name holds the value of the last row with
    that name. *)
Theorem extract_info_last_wins {V} (rows : list (pystr * V)) pre k v post :
  rows = pre ++ (k, v) :: post -> ~ In k (map fst post) ->
  info_get k (extract_info rows) = Some v.
Proof.
  intros -> Hk. unfold extract_info.
  rewrite fold_left_app. cbn [fold_left].
  rewrite fold_info_other by exact Hk. apply info_get_set_eq.
Qed.

(** X15: the names of the [info] dict are the distinct names of the rows,
    in the order of their first occurrence; a name of no row has no
    entry. *)
Theorem extract_info_keys {V} (rows : list (pystr * V)) :
  map fst (extract_info rows) =
    rev (nodup (list_eq_dec Z.eq_dec) (rev (map fst rows))) /\
  forall k, info_get k (extract_info rows) = None <-> ~ In k (map fst rows).
Proof.
  assert (Hk : map fst (extract_info rows) =
               rev (nodup (list_eq_dec Z.eq_dec) (rev (map fst rows)))).
  { unfold extract_info.
    induction rows as [|[k v] rows IH] using rev_ind; [reflexivity|].
    rewrite fold_left_app, map_app. cbn [fold_left map fst].
    unfold info_step at 1. cbn [fst snd].
    rewrite info_set_keys_order, IH, nodup_rev_snoc. reflexivity. }
  split; [exact Hk|]. intros k. rewrite info_get_keys, Hk, <- in_rev, nodup_In, <- in_rev.
  reflexivity.
Qed.

(** *** Witnesses *)

Lemma extract_plan_keeps_rows_witness :
  Forall (fun r => day r <> -1) example_rows /\
  concat (map readings (extract_plan example_rows)) = map mk_item example_rows.
Proof.
  assert (Hf : Forall (fun r => day r <> -1) example_rows)
    by (repeat constructor; cbn; lia).
  split; [exact Hf|]. exact (extract_plan_keeps_rows example_rows Hf).
Defined.

Lemma extract_plan_one_per_day_witness :
  Sorted row_le example_rows /\ Forall (fun r => day r <> -1) example_rows /\
  length (extract_plan example_rows) = length (nodup Z.eq_dec (map day example_rows)).
Proof.
  assert (Hs : Sorted row_le example_rows)
    by (repeat (apply Sorted_cons || apply Sorted_nil || apply HdRel_cons || apply HdRel_nil);
        unfold row_le; cbn; lia).
  assert (Hf : Forall (fun r => day r <> -1) example_rows)
    by (repeat constructor; cbn; lia).
  split; [exact Hs|split; [exact Hf|]].
  exact (proj2 (proj2 (extract_plan_one_per_day example_rows Hs Hf))).
Defined.

Lemma extract_info_last_wins_witness :
  let rows := [(cps_of_string "title", 1); (cps_of_string "days", 365);
               (cps_of_string "title", 2)]%string in
  rows = [(cps_of_string "title", 1); (cps_of_string "days", 365)]%string ++
           (cps_of_string "title"%string, 2) :: [] /\
  info_get (cps_of_string "title"%string) (extract_info rows) = Some 2.
Proof.
  intros rows.
  assert (Hr : rows = [(cps_of_string "title", 1); (cps_of_string "days", 365)]%string ++
                        (cps_of_string "title"%string, 2) :: []) by reflexivity.
  split; [exact Hr|].
  exact (extract_info_last_wins rows _ (cps_of_string "title"%string) 2 [] Hr (fun H => H)).
Defined.

End PlanExtras.

(** ** Witnesses for the further properties of extract_books *)

Lemma extract_books_no_color_line_witness :
  Forall (fun l => is_color (strip l) = false)
         [cps_of_string "Genesis"; cps_of_string "#12345"]%string /\
  extract_books latin1_isdigit latin1_decimal
    [cps_of_string "Genesis"; cps_of_string "#12345"]%string = ([], [PCount 0]).
Proof.
  assert (Hf : Forall (fun l => is_color (strip l) = false)
                 [cps_of_string "Genesis"; cps_of_string "#12345"]%string)
    by (repeat constructor).
  split; [exact Hf|]. exact (extract_books_no_color_line latin1_isdigit latin1_decimal _ Hf).
Defined.

Lemma books_keys_nonnegative_witness :
  (forall c v, latin1_decimal c = Some v -> 0 <= v) /\ latin1_isdigit 45 = false /\
  Forall (fun kv => 0 <= fst kv)
         (fst (extract_books latin1_isdigit latin1_decimal spec_example_lines)).
Proof.
  assert (Hdec : forall c v, latin1_decimal c = Some v -> 0 <= v).
  { intros c v. unfold latin1_decimal.
    destruct ((48 <=? c) && (c <=? 57)) eqn:E; [|discriminate].
    apply andb_true_iff in E as [E1 _]. apply Z.leb_le in E1.
    intros H. inversion H. lia. }
  assert (Hm : latin1_isdigit 45 = false) by reflexivity.
  split; [exact Hdec|split; [exact Hm|]].
  exact (books_keys_nonnegative latin1_isdigit latin1_decimal Hdec Hm spec_example_lines).
Defined.

Lemma scan_stores_disjoint_witness :
  scan latin1_isdigit latin1_decimal 0 duplicate_lines =
    [] ++ EStore 0 7 duplicate_record_a :: [EStore 6 7 duplicate_record_b] /\
  Forall (fun e => (0 + 6 <= event_index e)%nat) [EStore 6 7 duplicate_record_b].
Proof.
  assert (Hs : scan latin1_isdigit latin1_decimal 0 duplicate_lines =
    [] ++ EStore 0 7 duplicate_record_a :: [EStore 6 7 duplicate_record_b])
    by (vm_compute; reflexivity).
  split; [exact Hs|].
  exact (scan_stores_disjoint latin1_isdigit latin1_decimal duplicate_lines [] 0%nat 7
           duplicate_record_a [EStore 6 7 duplicate_record_b] Hs).
Defined.
